(** * Excel Sheet Merger (app.py): a shallow embedding and its properties

    The development follows the layout of [app.py]:

    - [PyStr]   the [str] methods the program calls ([strip], [lower],
                [replace], [split]);
    - [Pandas]  the part of the spreadsheet library the program relies on
                (work books, data frames, [DataFrame(list of dicts)]);
    - [App]     the program itself: [normalize_sheet_name], [log_message],
                [process_excel_file], [create_individual_excel_file],
                [reset_all_data] and the processing section of the script.

    Python values are represented as follows.  A [str] is a [string] whose
    characters are the code points 0..255 (Latin-1); names and texts with
    characters beyond U+00FF are outside this development.  A [dict] used
    as a finite map
    ([sheet_mapping], [results], [merged_data]) is a [gmap]; the [set]
    [processed_files] is a [gset]; the per-row [dict] produced by
    [row.to_dict()], whose key order becomes the column order of the
    exported table, is an association list.  An exception the program
    catches is represented by its message [str(e)], which is what the
    program logs; the exceptions of [to_excel], which the program does not
    catch, by a constructor each. *)

From stdpp Require Import gmap strings list fin_maps.
From Stdlib Require Import Ascii ZArith NArith.

Open Scope string_scope.
Open Scope list_scope.

Set Warnings "-clear-no-such-hyp".

(** ** Python [str] methods *)

Module PyStr.

(** [str.isspace] on one character of the Latin-1 range: TAB..CR,
    FS..US, SPACE, NEL and NBSP. *)
Definition isspace (c : ascii) : bool :=
  let n := N_of_ascii c in
  (((9 <=? n) && (n <=? 13)) || ((28 <=? n) && (n <=? 32))
   || (n =? 133) || (n =? 160))%N.

(** [str.lstrip()], [str.rstrip()] and [str.strip()] without argument. *)
Fixpoint lstrip (s : string) : string :=
  match s with
  | EmptyString => EmptyString
  | String c s' => if isspace c then lstrip s' else s
  end.

Fixpoint rstrip (s : string) : string :=
  match s with
  | EmptyString => EmptyString
  | String c s' =>
      match rstrip s' with
      | EmptyString => if isspace c then EmptyString else String c EmptyString
      | t => String c t
      end
  end.

Definition strip (s : string) : string := rstrip (lstrip s).

(** [str.lower()] on strings of the Latin-1 range: A..Z and the accented
    capitals U+00C0..U+00DE (the multiplication sign U+00D7 excepted) move
    up by 32; every other character is its own lower case.  On this range
    [str.lower()] works character by character.  Beyond it Python's
    [str.lower()] is not character-wise (a capital sigma becomes one of
    two letters according to its position in the word); such strings are
    not values of the type [string] and nothing below speaks about
    them. *)
Definition is_upper (c : ascii) : bool :=
  let n := N_of_ascii c in
  (((65 <=? n) && (n <=? 90))
   || ((192 <=? n) && (n <=? 222) && negb (n =? 215)))%N.

Definition lower_char (c : ascii) : ascii :=
  if is_upper c then ascii_of_N (N_of_ascii c + 32) else c.

Fixpoint lower (s : string) : string :=
  match s with
  | EmptyString => EmptyString
  | String c s' => String (lower_char c) (lower s')
  end.

(** [s.replace(old, new)] for a one-character [old]. *)
Fixpoint replace (old : ascii) (new s : string) : string :=
  match s with
  | EmptyString => EmptyString
  | String c s' =>
      if Ascii.eqb c old then new +:+ replace old new s'
      else String c (replace old new s')
  end.

(** [s.split(sep)] for a one-character [sep]. *)
Fixpoint split (sep : ascii) (s : string) : list string :=
  match s with
  | EmptyString => [EmptyString]
  | String c s' =>
      if Ascii.eqb c sep then EmptyString :: split sep s'
      else match split sep s' with
           | piece :: pieces => String c piece :: pieces
           | [] => [String c EmptyString]
           end
  end.

(** Truthiness of a [str]: non-empty. *)
Definition truthy (s : string) : bool :=
  match s with EmptyString => false | _ => true end.

(** Auxiliary predicates used in the statements. *)
Fixpoint all_chars (p : ascii -> bool) (s : string) : bool :=
  match s with
  | EmptyString => true
  | String c s' => p c && all_chars p s'
  end.

Fixpoint filter_chars (p : ascii -> bool) (s : string) : string :=
  match s with
  | EmptyString => EmptyString
  | String c s' => if p c then String c (filter_chars p s') else filter_chars p s'
  end.

Definition first_char (s : string) : option ascii :=
  match s with EmptyString => None | String c _ => Some c end.

Fixpoint last_char (s : string) : option ascii :=
  match s with
  | EmptyString => None
  | String c EmptyString => Some c
  | String _ s' => last_char s'
  end.

(** The string [t] is [s] with its leading and trailing whitespace
    trimmed. *)
Definition trimmed (s t : string) : Prop :=
  exists pre post,
    s = pre +:+ t +:+ post
    /\ all_chars isspace pre = true /\ all_chars isspace post = true
    /\ (forall c, first_char t = Some c -> isspace c = false)
    /\ (forall c, last_char t = Some c -> isspace c = false).

End PyStr.


(** ** The spreadsheet library *)

Module Pandas.

(** A library call either returns or raises; an exception is kept as the
    text [str(e)] the program prints. *)
Inductive Outcome (A : Type) : Type :=
| Returns (a : A)
| Raises (msg : string).
Arguments Returns {A} a.
Arguments Raises {A} msg.

(** Cell values: the scalars found in a frame.  [CInt] is a Python [int];
    [CFloat m e] is the float [m * 2**e], kept with an odd [m] (zero is
    [CFloat 0 0]); [CNaN] is the float NaN, the missing value. *)
Inductive Cell : Type :=
| CInt (z : Z)
| CFloat (m e : Z)
| CStr (s : string)
| CBool (b : bool)
| CNaN.

(** [float(z)], the conversion [pandas] applies to the integers of a
    column or row it stores as float64: the nearest number with a mantissa
    of 53 bits, a tie going to the even mantissa.  [float(2**53 + 1)] is
    [2**53]. *)
Fixpoint odd_part (p : positive) : positive * Z :=
  match p with
  | xO p' => let '(q, k) := odd_part p' in (q, (k + 1)%Z)
  | _ => (p, 0%Z)
  end.

Definition make_float (m e : Z) : Cell :=
  match m with
  | Z0 => CFloat 0 0
  | Zpos p => let '(q, k) := odd_part p in CFloat (Zpos q) (e + k)
  | Zneg p => let '(q, k) := odd_part p in CFloat (Zneg q) (e + k)
  end.

Definition float_of_int (z : Z) : Cell :=
  let a := Z.abs z in
  let shift := Z.max 0 (Z.log2 a - 52) in
  let q := Z.shiftr a shift in
  let r := (a - Z.shiftl q shift)%Z in
  let half := Z.shiftl 1 (shift - 1) in
  let up := (0 <? shift)%Z && ((half <? r)%Z || ((half =? r)%Z && Z.odd q)) in
  make_float (Z.sgn z * (if up then q + 1 else q)) shift.

(** An insertion-ordered [dict] from column name to cell. *)
Definition Record_ := list (string * Cell).

Fixpoint dict_get (k : string) (d : Record_) : option Cell :=
  match d with
  | [] => None
  | (k', v) :: d' => if String.eqb k k' then Some v else dict_get k d'
  end.

(** [d[k] = v]: an existing key keeps its position, a new key goes last. *)
Fixpoint dict_set (k : string) (v : Cell) (d : Record_) : Record_ :=
  match d with
  | [] => [(k, v)]
  | (k', v') :: d' =>
      if String.eqb k k' then (k', v) :: d' else (k', v') :: dict_set k v d'
  end.

Definition dict_keys (d : Record_) : list string := d.*1.

(** A data frame, as far as the program looks at it: the column labels
    [df.columns] and the rows of the array [df.values].  Frames read from
    a worksheet carry the default index 0, 1, 2, ...

    [df.values] holds the cells in the one dtype [pandas] finds for all
    the columns together, and it is this array [df.iterrows()] runs over.
    So the cells of [values] are the cells after that conversion: in a
    frame whose columns are all numeric and one of which holds a float or
    a missing value, an integer of the worksheet stands here as the
    [CFloat] nearest to it ([2**53 + 1] as [CFloat 1 53]); in a frame with
    a column of strings every cell stands as it was read. *)
Record DataFrame : Type := {
  columns : list string;
  values : list (list Cell)
}.

(** [len(df)] *)
Definition df_len (df : DataFrame) : nat := length (values df).

(** [df.empty]: one of the two axes has length 0. *)
Definition df_empty (df : DataFrame) : bool :=
  Nat.eqb (length (columns df)) 0 || Nat.eqb (length (values df)) 0.

(** [row.to_dict()] for a row of a frame with the given columns. *)
Definition to_dict (cols : list string) (row : list Cell) : Record_ :=
  foldl (fun d kv => dict_set kv.1 kv.2 d) [] (zip cols row).

(** [df.iterrows()]: [zip(df.index, df.values)], index label and row, in
    order; the row is a row of [df.values], which has the conversion to
    the common dtype behind it (see [DataFrame]). *)
Definition iterrows (df : DataFrame) : list (Z * Record_) :=
  imap (fun i row => (Z.of_nat i, to_dict (columns df) row)) (values df).

(** [pd.DataFrame(list_of_dicts)]: the columns are the keys of the dicts
    in order of first appearance, a key a dict lacks gives a missing
    value. *)
Definition union_columns (records : list Record_) : list string :=
  foldl (fun cols d =>
           foldl (fun cs k => if bool_decide (k ∈ cs) then cs else cs ++ [k])
                 cols (dict_keys d))
        [] records.

(** The objects of one column, before a dtype is chosen. *)
Definition column_of (c : string) (records : list Record_) : list Cell :=
  map (fun d => default CNaN (dict_get c d)) records.

(** The dtype [pandas] infers for a column of objects
    ([lib.maybe_convert_objects]).  A string makes the column [object]; so
    does a [bool] beside anything that is not a [bool], and an integer
    outside the 64 bit ranges (below [-2**63], above [2**64 - 1], or a
    negative one beside one above [2**63 - 1]).  Otherwise a float or a
    missing value makes the column float64, and a column of integers
    alone keeps its integers. *)
Inductive Dtype : Type := dt_int | dt_float | dt_bool | dt_object.

Definition is_int (x : Cell) : bool :=
  match x with CInt _ => true | _ => false end.

Definition is_float (x : Cell) : bool :=
  match x with CFloat _ _ | CNaN => true | _ => false end.

Definition is_str (x : Cell) : bool :=
  match x with CStr _ => true | _ => false end.

Definition is_bool (x : Cell) : bool :=
  match x with CBool _ => true | _ => false end.

Definition int_where (p : Z -> bool) (x : Cell) : bool :=
  match x with CInt z => p z | _ => false end.

Definition int_out_of_range (cells : list Cell) : bool :=
  existsb (int_where (fun z => (z <? - 2 ^ 63)%Z || (2 ^ 64 - 1 <? z)%Z)) cells
  || (existsb (int_where (fun z => (2 ^ 63 - 1 <? z)%Z)) cells
      && existsb (int_where (fun z => (z <? 0)%Z)) cells).

Definition infer_dtype (cells : list Cell) : Dtype :=
  if existsb is_str cells then dt_object
  else if existsb is_bool cells then
    if forallb is_bool cells then dt_bool else dt_object
  else if int_out_of_range cells then dt_object
  else if existsb is_float cells then dt_float
  else dt_int.

(** The cell as the column stores it: in a float64 column an integer is
    converted, every other cell is kept. *)
Definition astype (dtype : Dtype) (x : Cell) : Cell :=
  match dtype, x with
  | dt_float, CInt z => float_of_int z
  | _, _ => x
  end.

Definition DataFrame_of_records (records : list Record_) : DataFrame :=
  let cols := union_columns records in
  {| columns := cols;
     values := map (fun d =>
                      map (fun c => astype (infer_dtype (column_of c records))
                                      (default CNaN (dict_get c d)))
                          cols)
                   records |}.

(** The cell of row [i] in the column labelled [c]. *)
Fixpoint index_of (c : string) (cols : list string) : option nat :=
  match cols with
  | [] => None
  | c' :: cols' => if String.eqb c c' then Some 0 else S <$> index_of c cols'
  end.

Definition df_cell (df : DataFrame) (i : nat) (c : string) : option Cell :=
  row ← values df !! i; j ← index_of c (columns df); row !! j.

(** [df.to_excel(writer, sheet_name=..., index=False)] through [openpyxl]
    either writes the table or raises.  It raises [ValueError] ("This
    sheet is too large!") for a frame of more than [2**20] rows or more
    than [2**14] columns, before a cell is written; and [openpyxl] raises
    [IllegalCharacterError] for a string, a column label or a cell, that
    has a control character other than TAB, LF and CR among its first
    32767 characters (the part of a string it keeps). *)
Inductive ExcelError : Type :=
| SheetTooLarge (num_rows num_cols : nat)
| IllegalCharacterError.

Definition max_rows : N := 1048576.
Definition max_cols : N := 16384.

Definition illegal_character (c : ascii) : bool :=
  let n := N_of_ascii c in
  ((n <=? 8) || ((11 <=? n) && (n <=? 12)) || ((14 <=? n) && (n <=? 31)))%N.

Fixpoint prefix_legal (n : N) (s : string) : bool :=
  match s with
  | EmptyString => true
  | String c s' =>
      if (n =? 0)%N then true
      else negb (illegal_character c) && prefix_legal (N.pred n) s'
  end.

Definition check_string (s : string) : bool := prefix_legal 32767 s.

Definition cell_writable (x : Cell) : bool :=
  match x with CStr s => check_string s | _ => true end.

Definition to_excel (df : DataFrame) : option ExcelError :=
  let num_rows := length (values df) in
  let num_cols := length (columns df) in
  if ((max_rows <? N.of_nat num_rows) || (max_cols <? N.of_nat num_cols))%N
  then Some (SheetTooLarge num_rows num_cols)
  else if forallb check_string (columns df)
          && forallb (forallb cell_writable) (values df)
  then None
  else Some IllegalCharacterError.

(** An opened work book ([pd.ExcelFile]): its worksheets in order, each
    with what [pd.read_excel] does on it. *)
Record ExcelFile : Type := {
  sheets : list (string * Outcome DataFrame)
}.

Definition sheet_names (xls : ExcelFile) : list string := (sheets xls).*1.

Fixpoint find_sheet (sheet_name : string) (l : list (string * Outcome DataFrame))
  : option (Outcome DataFrame) :=
  match l with
  | [] => None
  | (n, o) :: l' => if String.eqb sheet_name n then Some o else find_sheet sheet_name l'
  end.

(** [pd.read_excel(path, sheet_name=...)]: the first worksheet with that
    title; an unknown title raises. *)
Definition read_excel (xls : ExcelFile) (sheet_name : string) : Outcome DataFrame :=
  match find_sheet sheet_name (sheets xls) with
  | Some o => o
  | None => Raises ("Worksheet named '" +:+ sheet_name +:+ "' not found")
  end.

(** An uploaded file: its display name and what [pd.ExcelFile] does on a
    temporary file that holds [file.getvalue()]. *)
Record UploadedFile : Type := {
  name : string;
  opened : Outcome ExcelFile
}.

End Pandas.

(** ** The program *)

Module App.
Import PyStr Pandas.

(** [normalize_sheet_name]:
    [str(name).strip().lower().replace(' ', '').replace('_', '')] *)
Definition normalize_sheet_name (name : string) : string :=
  replace "_" EmptyString (replace " " EmptyString (lower (strip name))).

(** The specification's wording of the normalizer, to compare with the
    code: trim leading and trailing whitespace, lower-case, then drop every
    space and underscore character. *)
Definition is_space_or_underscore (c : ascii) : bool :=
  Ascii.eqb c " " || Ascii.eqb c "_".

Definition normalize_spec (name r : string) : Prop :=
  exists t, trimmed name t
    /\ r = filter_chars (fun c => negb (is_space_or_underscore c)) (lower t).

(** The texts written to the log, one constructor per f-string of
    [process_excel_file], with the interpolated values as arguments. *)
Inductive LogLine : Type :=
| ProcessingFile (file_name : string)
| FoundSheets (count : nat) (names : list string)
| SheetIsEmpty (original_sheet : string)
| FoundSheet (original_sheet : string) (rows cols : nat)
| ErrorReadingSheet (original_sheet : string) (e : string)
| SheetNotFound (target_sheet : string)
| NoMatchingSheets
| SuccessfullyProcessed (matches_found : nat)
| ErrorProcessingFile (file_name : string) (e : string).

Inductive MsgType : Type := info | warning | error.

Record LogEntry : Type := {
  message : LogLine;
  type : MsgType
}.

(** One element of [results[target_sheet]]. *)
Record ExtractedRow : Type := {
  data : Record_;
  source_file : string;
  source_sheet : string;
  row_index : Z
}.

(** [st.session_state], together with the temporary files that exist. *)
Record State : Type := {
  merged_data : gmap string (list ExtractedRow);
  processed_files : gset string;
  processing_log : list LogEntry;
  tmp_files : gset nat
}.

(** The state of a new session. *)
Definition initial_state (tmp : gset nat) : State :=
  {| merged_data := ∅; processed_files := ∅; processing_log := [];
     tmp_files := tmp |}.

(** [d[k]] on a [defaultdict(list)], read only. *)
Definition dd_get {A} (d : gmap string (list A)) (k : string) : list A :=
  default [] (d !! k).

(** [d[k].append(x)] and [d[k].extend(xs)] on a [defaultdict(list)]: the
    key is created on access. *)
Definition dd_append {A} (k : string) (x : A) (d : gmap string (list A))
  : gmap string (list A) :=
  <[k := dd_get d k ++ [x]]> d.

Definition dd_extend {A} (k : string) (xs : list A) (d : gmap string (list A))
  : gmap string (list A) :=
  <[k := dd_get d k ++ xs]> d.

(** [log_message(message, msg_type="info")] *)
Definition log_message (message : LogLine) (msg_type : MsgType) (st : State) : State :=
  {| merged_data := merged_data st;
     processed_files := processed_files st;
     processing_log := processing_log st ++ [{| message := message; type := msg_type |}];
     tmp_files := tmp_files st |}.

Definition msg_type_default : MsgType := info.

(** Lines 52-55: the lookup from normalized name to original name. *)
Definition build_sheet_mapping (names : list string) : gmap string string :=
  foldl (fun sheet_mapping sheet_name =>
           <[normalize_sheet_name sheet_name := sheet_name]> sheet_mapping)
        ∅ names.

(** The variables the loop over [target_sheets] updates. *)
Record Loop : Type := {
  results : gmap string (list ExtractedRow);
  file_log : list LogLine;
  matches_found : nat
}.

(** Lines 73-80: one [ExtractedRow] per [(index, row)] of [df.iterrows()]. *)
Definition extract_rows (file_name target_sheet original_sheet : string)
    (df : DataFrame) (results : gmap string (list ExtractedRow))
  : gmap string (list ExtractedRow) :=
  foldl (fun res ir =>
           dd_append target_sheet
             {| data := ir.2; source_file := file_name;
                source_sheet := original_sheet; row_index := ir.1 |} res)
        results (iterrows df).

(** Lines 60-88: the body of the loop over [target_sheets]. *)
Definition target_step (file_name : string) (xls : ExcelFile)
    (sheet_mapping : gmap string string) (l : Loop) (target_sheet : string) : Loop :=
  let normalized_target := normalize_sheet_name target_sheet in
  match sheet_mapping !! normalized_target with
  | Some original_sheet =>
      match read_excel xls original_sheet with
      | Returns df =>
          if df_empty df then
            {| results := results l;
               file_log := file_log l ++ [SheetIsEmpty original_sheet];
               matches_found := matches_found l |}
          else
            {| results := extract_rows file_name target_sheet original_sheet df (results l);
               file_log := file_log l
                 ++ [FoundSheet original_sheet (df_len df) (length (columns df))];
               matches_found := matches_found l + 1 |}
      | Raises e =>
          {| results := results l;
             file_log := file_log l ++ [ErrorReadingSheet original_sheet e];
             matches_found := matches_found l |}
      end
  | None =>
      {| results := results l;
         file_log := file_log l ++ [SheetNotFound target_sheet];
         matches_found := matches_found l |}
  end.

(** [process_excel_file(file, target_sheets)].  The first argument is the
    set of temporary files that exist when the call starts; the third
    component of the result is that set when the call returns. *)
Definition process_excel_file (tmp : gset nat) (file : UploadedFile)
    (target_sheets : list string)
  : gmap string (list ExtractedRow) * list LogLine * gset nat :=
  let tmp_file_path := fresh tmp in
  let tmp1 := {[tmp_file_path]} ∪ tmp in
  match opened file with
  | Returns xls =>
      let file_log0 :=
        [ProcessingFile (name file);
         FoundSheets (length (sheet_names xls)) (sheet_names xls)] in
      let sheet_mapping := build_sheet_mapping (sheet_names xls) in
      let l := foldl (target_step (name file) xls sheet_mapping)
                 {| results := ∅; file_log := file_log0; matches_found := 0 |}
                 target_sheets in
      let file_log1 :=
        file_log l ++ [if Nat.eqb (matches_found l) 0 then NoMatchingSheets
                       else SuccessfullyProcessed (matches_found l)] in
      (results l, file_log1, tmp1 ∖ {[tmp_file_path]})
  | Raises e =>
      (∅, [ErrorProcessingFile (name file) e], tmp1)
  end.

(** The rows one worksheet yields: row [i] of the frame, as a dict, with
    its provenance. *)
Definition rows_of_frame (file_name original_sheet : string) (df : DataFrame)
  : list ExtractedRow :=
  imap (fun i row =>
          {| data := to_dict (columns df) row; source_file := file_name;
             source_sheet := original_sheet; row_index := Z.of_nat i |})
       (values df).

(** The rows one pass of the loop body appends for [target_sheet]. *)
Definition target_rows (file_name : string) (xls : ExcelFile) (target_sheet : string)
  : list ExtractedRow :=
  match build_sheet_mapping (sheet_names xls) !! normalize_sheet_name target_sheet with
  | Some original_sheet =>
      match read_excel xls original_sheet with
      | Returns df =>
          if df_empty df then [] else rows_of_frame file_name original_sheet df
      | Raises _ => []
      end
  | None => []
  end.

(** All the rows a file yields under the key [key], in the order in which
    the loop over [target_sheets] appends them. *)
Definition file_rows (file : UploadedFile) (target_sheets : list string) (key : string)
  : list ExtractedRow :=
  match opened file with
  | Returns xls =>
      filter (fun t => t = key) target_sheets ≫= target_rows (name file) xls
  | Raises _ => []
  end.

(** A key of a [defaultdict(list)] that exists only once a row was
    appended. *)
Definition entry_of {A} (rows : list A) : option (list A) :=
  match rows with [] => None | _ => Some rows end.

(** The line written when the whole file fails, and the two lines the
    specification gives a severity of their own. *)
Definition is_file_error (line : LogLine) : bool :=
  match line with ErrorProcessingFile _ _ => true | _ => false end.

Definition is_sheet_error (line : LogLine) : bool :=
  match line with ErrorReadingSheet _ _ => true | _ => false end.

Definition is_empty_sheet (line : LogLine) : bool :=
  match line with SheetIsEmpty _ => true | _ => false end.

(** The exported document: one worksheet, written without the index; it
    is kept as the table handed to [to_excel]. *)
Record Document : Type := {
  doc_sheet : string;
  doc_table : DataFrame
}.

(** Lines 114-120: the row of the combined table for one item. *)
Definition export_row (item : ExtractedRow) : Record_ :=
  let row_data := data item in
  let row_data := dict_set "_Source_File" (CStr (source_file item)) row_data in
  let row_data := dict_set "_Source_Sheet" (CStr (source_sheet item)) row_data in
  dict_set "_Original_Row" (CInt (row_index item)) row_data.

(** What a call of [create_individual_excel_file] does: it returns, [None]
    or the document, or the exception of [to_excel] leaves it. *)
Inductive ExportResult : Type :=
| Output (excel_file : option Document)
| ExportRaises (e : ExcelError).

(** [create_individual_excel_file(sheet_name, data_list)]; [None] is
    Python's [None]. *)
Definition create_individual_excel_file (sheet_name : string)
    (data_list : list ExtractedRow) : ExportResult :=
  match data_list with
  | [] => Output None
  | _ =>
      let all_rows := map export_row data_list in
      let df_combined := DataFrame_of_records all_rows in
      match to_excel df_combined with
      | Some e => ExportRaises e
      | None => Output (Some {| doc_sheet := "Data"; doc_table := df_combined |})
      end
  end.

(** [reset_all_data()] and the "Clear Log" button. *)
Definition reset_all_data (st : State) : State :=
  {| merged_data := ∅; processed_files := ∅; processing_log := [];
     tmp_files := tmp_files st |}.

Definition clear_log (st : State) : State :=
  {| merged_data := merged_data st; processed_files := processed_files st;
     processing_log := []; tmp_files := tmp_files st |}.

(** Lines 210-212: the target names typed by the user. *)
Definition parse_target_sheets (sheet_input : string) : list string :=
  if truthy (strip sheet_input) then
    map strip (List.filter (fun sheet => truthy (strip sheet)) (split "," sheet_input))
  else [].

(** Lines 245-246: the results of one file go to [merged_data]. *)
Definition merge_results (current file_results : gmap string (list ExtractedRow))
  : gmap string (list ExtractedRow) :=
  map_fold (fun sheet_name data_list merged => dd_extend sheet_name data_list merged)
           current file_results.

(** Lines 239-256: the body of the loop over [files_to_process]. *)
Definition process_one (target_sheets : list string) (st : State) (file : UploadedFile)
  : State :=
  let '(file_results, file_log, tmp') :=
    process_excel_file (tmp_files st) file target_sheets in
  let st1 :=
    {| merged_data := merge_results (merged_data st) file_results;
       processed_files := {[name file]} ∪ processed_files st;
       processing_log := processing_log st;
       tmp_files := tmp' |} in
  foldl (fun s log_entry => log_message log_entry msg_type_default s) st1 file_log.

(** Line 224. *)
Definition new_files_of (uploaded_files : list UploadedFile) (st : State)
  : list UploadedFile :=
  filter (fun f => name f ∉ processed_files st) uploaded_files.

(** Lines 220-264: one run of the processing section.  [preview_limit] is
    [None] for "All Files"; [button] tells whether "Process Files" was
    pressed in this run. *)
Definition processing_section (uploaded_files : list UploadedFile)
    (target_sheets : list string) (preview_limit : option nat) (button : bool)
    (st : State) : State :=
  match uploaded_files, target_sheets with
  | _ :: _, _ :: _ =>
      let new_files := new_files_of uploaded_files st in
      match new_files with
      | _ :: _ =>
          if button then
            let files_to_process :=
              match preview_limit with
              | None => new_files
              | Some n => take n new_files
              end in
            foldl (process_one target_sheets) st files_to_process
          else st
      | [] => st
      end
  | _, _ => st
  end.

(** The files one run of the processing section hands to the loop. *)
Definition batch_of (uploaded_files : list UploadedFile) (target_sheets : list string)
    (preview_limit : option nat) (button : bool) (st : State) : list UploadedFile :=
  match target_sheets with
  | [] => []
  | _ =>
      if button then
        match preview_limit with
        | None => new_files_of uploaded_files st
        | Some n => take n (new_files_of uploaded_files st)
        end
      else []
  end.

(** What a user does in a session: a run of the script with the files
    and names entered, "Reset All", "Clear Log". *)
Inductive Action : Type :=
| Run (uploaded_files : list UploadedFile) (target_sheets : list string)
      (preview_limit : option nat) (button : bool)
| ResetAll
| ClearLog.

Definition run_action (st : State) (a : Action) : State :=
  match a with
  | Run uploaded_files target_sheets preview_limit button =>
      processing_section uploaded_files target_sheets preview_limit button st
  | ResetAll => reset_all_data st
  | ClearLog => clear_log st
  end.

Definition run_session (tmp : gset nat) (actions : list Action) : State :=
  foldl run_action (initial_state tmp) actions.

(** The files a session has handed to [process_excel_file] since the last
    reset, in processing order, each with the target names of its run: a
    run adds the files of its loop, "Reset All" starts again, "Clear Log"
    changes nothing. *)
Definition record_action (acc : State * list (UploadedFile * list string))
    (a : Action) : State * list (UploadedFile * list string) :=
  (run_action acc.1 a,
   match a with
   | Run uploaded_files target_sheets preview_limit button =>
       acc.2 ++ ((fun f => (f, target_sheets))
                   <$> batch_of uploaded_files target_sheets preview_limit button acc.1)
   | ResetAll => []
   | ClearLog => acc.2
   end).

Definition session_history (tmp : gset nat) (actions : list Action)
  : list (UploadedFile * list string) :=
  (foldl record_action (initial_state tmp, []) actions).2.

(** A row of [file] matches the target [key] in a call with the targets
    [target_sheets]: the file opens, [key] is one of the targets, its
    normalized form is a key of the worksheet lookup, and the worksheet
    found there reads as a frame that is not empty. *)
Definition matched (file : UploadedFile) (target_sheets : list string) (key : string)
  : Prop :=
  exists xls original_sheet df,
    opened file = Returns xls
    /\ key ∈ target_sheets
    /\ build_sheet_mapping (sheet_names xls) !! normalize_sheet_name key
       = Some original_sheet
    /\ read_excel xls original_sheet = Returns df
    /\ df_empty df = false.

(** The rows a sequence of processed files, each with the target names of
    its run, yields under [key]. *)
Definition history_rows (history : list (UploadedFile * list string)) (key : string)
  : list ExtractedRow :=
  history ≫= (fun p => file_rows p.1 p.2 key).

(** The number of rows the uploaded file called [file_name] yields under
    [key]. *)
Definition matched_rows_of_name (uploaded_files : list UploadedFile)
    (target_sheets : list string) (key : string) (file_name : string) : nat :=
  match list_find (fun f => name f = file_name) uploaded_files with
  | Some (_, f) => length (file_rows f target_sheets key)
  | None => 0
  end.

(** The count of the guard: rows under a key against rows per processed
    name. *)
Definition counted (uploaded_files : list UploadedFile) (target_sheets : list string)
    (st : State) : Prop :=
  forall key,
    length (dd_get (merged_data st) key)
    = sum_list_with (matched_rows_of_name uploaded_files target_sheets key)
        (elements (processed_files st)).

(** A log entry as the processing loop writes it. *)
Definition logged (line : LogLine) : LogEntry :=
  {| message := line; type := msg_type_default |}.

End App.

(** ** Sample inputs *)

Module Samples.
Import Pandas.

Definition frame_two : DataFrame :=
  {| columns := ["a"; "b"];
     values := [[CInt 1; CStr "x"]; [CInt 2; CNaN]] |}.

Definition frame_one : DataFrame :=
  {| columns := ["a"]; values := [[CInt 7]] |}.

Definition frame_other : DataFrame :=
  {| columns := ["a"]; values := [[CInt 8]] |}.

Definition frame_none : DataFrame :=
  {| columns := ["a"]; values := [] |}.

(** Three worksheets: one without data rows, one with two rows, one that
    cannot be read. *)
Definition book_one : ExcelFile :=
  {| sheets := [("Summary", Returns frame_none);
                ("final mr_ac", Returns frame_two);
                ("Bad", Raises "boom")] |}.

Definition file_one : UploadedFile :=
  {| name := "one.xlsx"; opened := Returns book_one |}.

(** A file that is not a work book. *)
Definition file_broken : UploadedFile :=
  {| name := "broken.xlsx"; opened := Raises "File is not a zip file" |}.

(** Two different files with one display name. *)
Definition file_twin_a : UploadedFile :=
  {| name := "same.xlsx";
     opened := Returns {| sheets := [("S", Returns frame_one)] |} |}.

Definition file_twin_b : UploadedFile :=
  {| name := "same.xlsx";
     opened := Returns {| sheets := [("S", Returns frame_other)] |} |}.

(** Two worksheets with one normalized name. *)
Definition file_collide : UploadedFile :=
  {| name := "collide.xlsx";
     opened := Returns {| sheets := [("Summary", Returns frame_one);
                                     ("summary ", Returns frame_two)] |} |}.

End Samples.

(** ** The page: metrics, downloads, preview and log display *)

Module Page.
Import PyStr Pandas App.

(** [sep.join(pieces)] *)
Fixpoint join (sep : string) (pieces : list string) : string :=
  match pieces with
  | [] => EmptyString
  | piece :: rest =>
      match rest with
      | [] => piece
      | _ => piece +:+ sep +:+ join sep rest
      end
  end.

(** Lines 178 and 274: [sum(len(data) for data in merged_data.values())]. *)
Definition total_rows (merged : gmap string (list ExtractedRow)) : nat :=
  map_fold (fun _ data_list acc => acc + length data_list) 0 merged.

(** Lines 174-179: the metrics of the sidebar; "Total Rows" is shown only
    when [merged_data] is not empty. *)
Record Metrics : Type := {
  files_processed : nat;
  sheets_merged : nat;
  total_rows_metric : option nat
}.

Definition sidebar_metrics (st : State) : Metrics :=
  {| files_processed := size (processed_files st);
     sheets_merged := size (merged_data st);
     total_rows_metric :=
       if decide (merged_data st = ∅) then None
       else Some (total_rows (merged_data st)) |}.

(** A [dict] from file name to count, in insertion order. *)
Definition Counts := list (string * nat).

Fixpoint counts_get (k : string) (d : Counts) : option nat :=
  match d with
  | [] => None
  | (k', v) :: d' => if String.eqb k k' then Some v else counts_get k d'
  end.

Fixpoint counts_set (k : string) (v : nat) (d : Counts) : Counts :=
  match d with
  | [] => [(k, v)]
  | (k', v') :: d' =>
      if String.eqb k k' then (k', v) :: d' else (k', v') :: counts_set k v d'
  end.

(** Lines 293-296 and 323-326:
    [file_counts[file_name] = file_counts.get(file_name, 0) + 1]. *)
Definition file_counts (data_list : list ExtractedRow) : Counts :=
  foldl (fun file_counts item =>
           let file_name := source_file item in
           counts_set file_name (default 0 (counts_get file_name file_counts) + 1)
             file_counts)
        [] data_list.





(** Lines 342-357: the preview of one key, the first five rows with two
    provenance columns, and the caption shown when rows are left out. *)
Definition preview_row (item : ExtractedRow) : Record_ :=
  let row_data := data item in
  let row_data := dict_set "_Source_File" (CStr (source_file item)) row_data in
  dict_set "_Source_Sheet" (CStr (source_sheet item)) row_data.

Record Preview : Type := {
  preview_table : DataFrame;
  preview_caption : option (nat * nat)
}.

Definition preview_of (data_list : list ExtractedRow) : option Preview :=
  match data_list with
  | [] => None
  | _ =>
      let preview_data := map preview_row (take 5 data_list) in
      match preview_data with
      | [] => None
      | _ =>
          Some {| preview_table := DataFrame_of_records preview_data;
                  preview_caption :=
                    if Nat.ltb 5 (length data_list)
                    then Some (5, length data_list) else None |}
      end
  end.

(** Lines 360-370: the log display, the last 50 entries, each through the
    call its type selects. *)
Inductive Widget : Type :=
| st_error (message : LogLine)
| st_warning (message : LogLine)
| st_info (message : LogLine).

Definition render_entry (log_entry : LogEntry) : Widget :=
  match type log_entry with
  | error => st_error (message log_entry)
  | warning => st_warning (message log_entry)
  | info => st_info (message log_entry)
  end.

(** [l[-n:]] for a positive [n]. *)
Definition last_entries {A} (n : nat) (l : list A) : list A :=
  drop (length l - n) l.

Definition render_log (processing_log : list LogEntry) : list Widget :=
  match processing_log with
  | [] => []
  | _ => map render_entry (last_entries 50 processing_log)
  end.

(** Terms of the statements below. *)

(** The name is as the parser returns names: not empty, without a comma,
    without whitespace at either end. *)
Definition well_formed_target (t : string) : Prop :=
  t <> EmptyString /\ strip t = t
  /\ all_chars (fun c => negb (Ascii.eqb c ",")) t = true.

(** The string without its space characters. *)
Definition without_spaces (s : string) : string :=
  filter_chars (fun c => negb (Ascii.eqb c " ")) s.

(** The file opens as a work book. *)
Definition opens (file : UploadedFile) : bool :=
  match opened file with Returns _ => true | Raises _ => false end.

(** The number of rows one call of [process_excel_file] extracts. *)
Definition rows_extracted (file : UploadedFile) (target_sheets : list string) : nat :=
  match opened file with
  | Returns xls =>
      sum_list_with (fun t => length (target_rows (name file) xls t)) target_sheets
  | Raises _ => 0
  end.

(** The line the loop body logs for one target. *)
Definition target_line (xls : ExcelFile) (target_sheet : string) : LogLine :=
  match build_sheet_mapping (sheet_names xls) !! normalize_sheet_name target_sheet with
  | Some original_sheet =>
      match read_excel xls original_sheet with
      | Returns df =>
          if df_empty df then SheetIsEmpty original_sheet
          else FoundSheet original_sheet (df_len df) (length (columns df))
      | Raises e => ErrorReadingSheet original_sheet e
      end
  | None => SheetNotFound target_sheet
  end.

(** The column holds an integer beside a float or a missing value. *)
Definition mixes_int_and_float (cells : list Cell) : bool :=
  existsb is_int cells && existsb is_float cells.

(** The frame is one whose rows no conversion to a common dtype can
    touch: it has a string cell (its rows are rows of objects), or no
    integer at all, or nothing but integers of the int64 range. *)
Definition rows_of_one_dtype (df : DataFrame) : bool :=
  let cells := concat (values df) in
  existsb is_str cells
  || negb (existsb is_int cells)
  || forallb (int_where (fun z => (- 2 ^ 63 <=? z)%Z && (z <=? 2 ^ 63 - 1)%Z)) cells.

(** The session without the temporary files. *)
Definition session_data (st : State)
  : gmap string (list ExtractedRow) * gset string * list LogEntry :=
  (merged_data st, processed_files st, processing_log st).

Definition is_clear_log (a : Action) : bool :=
  match a with ClearLog => true | _ => false end.

End Page.

(** * Properties *)

(** [String.app] is never unfolded by [simpl]; this tactic computes it on
    constructors, in the goal and in the hypotheses. *)
Ltac str_simpl :=
  repeat (simpl in *;
    match goal with
    | |- context [String ?c ?s +:+ ?t] =>
        change (String c s +:+ t) with (String c (s +:+ t))
    | |- context [EmptyString +:+ ?t] => change (EmptyString +:+ t) with t
    | H : context [String ?c ?s +:+ ?t] |- _ =>
        change (String c s +:+ t) with (String c (s +:+ t)) in H
    | H : context [EmptyString +:+ ?t] |- _ =>
        change (EmptyString +:+ t) with t in H
    end); simpl in *.

(** ** Strings *)

Section PyStrFacts.
Import PyStr.

Lemma append_empty_r (s : string) : s +:+ EmptyString = s.
Proof. induction s as [|c s IH]; str_simpl; [done | by f_equal]. Qed.

Lemma append_assoc (s t u : string) : (s +:+ t) +:+ u = s +:+ (t +:+ u).
Proof. induction s as [|c s IH]; str_simpl; [done | by f_equal]. Qed.

Lemma lstrip_all_space (post : string) :
  all_chars isspace post = true -> lstrip post = EmptyString.
Proof.
  induction post as [|c post IH]; simpl; [done |].
  intros [Hc Hpost]%andb_prop. rewrite Hc. auto.
Qed.

Lemma lstrip_app_space (pre u : string) :
  all_chars isspace pre = true -> lstrip (pre +:+ u) = lstrip u.
Proof.
  induction pre as [|c pre IH]; [done |].
  intros [Hc Hpre]%andb_prop. str_simpl. rewrite Hc. auto.
Qed.

Lemma lstrip_fixed (t : string) :
  (forall c, first_char t = Some c -> isspace c = false) -> lstrip t = t.
Proof.
  destruct t as [|c t]; simpl; [done |].
  intros H. by rewrite (H c).
Qed.

Lemma lstrip_split (s : string) :
  exists pre, s = pre +:+ lstrip s /\ all_chars isspace pre = true.
Proof.
  induction s as [|c s [pre [Heq Hpre]]]; simpl.
  - by exists EmptyString.
  - destruct (isspace c) eqn:Hc.
    + exists (String c pre). str_simpl. rewrite Hc, Hpre. split; [by f_equal | done].
    + by exists EmptyString.
Qed.

Lemma lstrip_first (s : string) (c : ascii) :
  first_char (lstrip s) = Some c -> isspace c = false.
Proof.
  induction s as [|c' s IH]; simpl; [done |].
  destruct (isspace c') eqn:Hc'; [done |].
  simpl. by intros [= <-].
Qed.

Lemma rstrip_all_space (post : string) :
  all_chars isspace post = true -> rstrip post = EmptyString.
Proof.
  induction post as [|c post IH]; simpl; [done |].
  intros [Hc Hpost]%andb_prop. by rewrite (IH Hpost), Hc.
Qed.

Lemma rstrip_app_space (t post : string) :
  all_chars isspace post = true -> rstrip (t +:+ post) = rstrip t.
Proof.
  intros Hpost. induction t as [|c t IH]; str_simpl.
  - by apply rstrip_all_space.
  - by rewrite IH.
Qed.

Lemma rstrip_fixed (t : string) :
  (forall c, last_char t = Some c -> isspace c = false) -> rstrip t = t.
Proof.
  induction t as [|c t IH]; simpl; [done |].
  destruct t as [|c' t'].
  - intros H. simpl. by rewrite (H c).
  - intros H. by rewrite (IH H).
Qed.

Lemma rstrip_split (s : string) :
  exists post, s = rstrip s +:+ post /\ all_chars isspace post = true.
Proof.
  induction s as [|c s [post [Heq Hpost]]]; simpl.
  - by exists EmptyString.
  - destruct (rstrip s) as [|c' r] eqn:Hr.
    + str_simpl. subst post. destruct (isspace c) eqn:Hc.
      * exists (String c s). str_simpl. by rewrite Hc, Hpost.
      * by exists s.
    + exists post. str_simpl. split; [by f_equal | done].
Qed.

Lemma rstrip_last (s : string) (c : ascii) :
  last_char (rstrip s) = Some c -> isspace c = false.
Proof.
  induction s as [|c' s IH]; simpl; [done |].
  destruct (rstrip s) as [|c'' r] eqn:Hr.
  - destruct (isspace c') eqn:Hc'; simpl; [done | by intros [= <-]].
  - simpl in *. done.
Qed.

Lemma rstrip_first (s : string) (c : ascii) :
  first_char (rstrip s) = Some c -> first_char s = Some c.
Proof.
  destruct s as [|c' s]; simpl; [done |].
  destruct (rstrip s); [destruct (isspace c') |]; simpl; done.
Qed.

Lemma strip_trimmed (s : string) : trimmed s (strip s).
Proof.
  unfold strip.
  destruct (lstrip_split s) as [pre [Hs Hpre]].
  destruct (rstrip_split (lstrip s)) as [post [Hl Hpost]].
  exists pre, post. repeat split; try done.
  - by rewrite <- Hl.
  - intros c Hc. apply rstrip_first in Hc. by apply lstrip_first in Hc.
  - apply rstrip_last.
Qed.

Lemma trimmed_unique (s t : string) : trimmed s t -> t = strip s.
Proof.
  intros (pre & post & -> & Hpre & Hpost & Hfirst & Hlast).
  unfold strip. rewrite (lstrip_app_space _ _ Hpre).
  destruct t as [|c t].
  - str_simpl. by rewrite (lstrip_all_space post Hpost).
  - rewrite lstrip_fixed by (str_simpl; intros c' [= <-]; by apply Hfirst).
    rewrite (rstrip_app_space _ _ Hpost). symmetry. by apply rstrip_fixed.
Qed.

Lemma replace_empty_filter (old : ascii) (s : string) :
  replace old EmptyString s = filter_chars (fun c => negb (Ascii.eqb c old)) s.
Proof.
  induction s as [|c s IH]; simpl; [done |].
  destruct (Ascii.eqb c old); str_simpl; [done | by f_equal].
Qed.

Lemma filter_chars_twice (p q : ascii -> bool) (s : string) :
  filter_chars p (filter_chars q s) = filter_chars (fun c => q c && p c) s.
Proof.
  induction s as [|c s IH]; simpl; [done |].
  destruct (q c); simpl; [destruct (p c); [by f_equal | done] | done].
Qed.

Lemma filter_chars_ext (p q : ascii -> bool) (s : string) :
  (forall c, p c = q c) -> filter_chars p s = filter_chars q s.
Proof.
  intros Hpq. induction s as [|c s IH]; simpl; [done |].
  rewrite Hpq, IH. done.
Qed.

Lemma all_chars_filter (p q : ascii -> bool) (s : string) :
  all_chars p s = true -> all_chars p (filter_chars q s) = true.
Proof.
  induction s as [|c s IH]; simpl; [done |].
  intros [Hc Hs]%andb_prop. destruct (q c); simpl; [rewrite Hc |]; auto.
Qed.

Lemma all_chars_filter_self (q : ascii -> bool) (s : string) :
  all_chars q (filter_chars q s) = true.
Proof.
  induction s as [|c s IH]; simpl; [done |].
  destruct (q c) eqn:Hc; simpl; [rewrite Hc |]; auto.
Qed.

Lemma all_chars_and (p q : ascii -> bool) (s : string) :
  all_chars p s = true -> all_chars q s = true ->
  all_chars (fun c => p c && q c) s = true.
Proof.
  induction s as [|c s IH]; simpl; [done |].
  intros [-> Hp]%andb_prop [-> Hq]%andb_prop. simpl. auto.
Qed.

Lemma is_upper_lower_char (c : ascii) : is_upper (lower_char c) = false.
Proof. destruct c as [[] [] [] [] [] [] [] []]; reflexivity. Qed.

Lemma lower_no_upper (s : string) :
  all_chars (fun c => negb (is_upper c)) (lower s) = true.
Proof.
  induction s as [|c s IH]; simpl; [done |].
  by rewrite is_upper_lower_char, IH.
Qed.

End PyStrFacts.

(** ** The name normalizer and the lookup of worksheets *)

Section Normalizer.
Import PyStr Pandas App.

Lemma normalize_sheet_name_filter (name : string) :
  normalize_sheet_name name
  = filter_chars (fun c => negb (is_space_or_underscore c)) (lower (strip name)).
Proof.
  unfold normalize_sheet_name.
  rewrite !replace_empty_filter, filter_chars_twice.
  apply filter_chars_ext. intros c. unfold is_space_or_underscore.
  by rewrite negb_orb.
Qed.

Lemma build_sheet_mapping_snoc (names : list string) (sheet_name : string) :
  build_sheet_mapping (names ++ [sheet_name])
  = <[normalize_sheet_name sheet_name := sheet_name]> (build_sheet_mapping names).
Proof. unfold build_sheet_mapping. by rewrite foldl_app. Qed.

(** The lookup holds, for each key, the last worksheet that normalizes to
    it. *)
Lemma build_sheet_mapping_lookup (names : list string) (key : string) :
  build_sheet_mapping names !! key
  = last (filter (fun n => normalize_sheet_name n = key) names).
Proof.
  induction names as [|sheet_name names IH] using rev_ind; [done |].
  rewrite build_sheet_mapping_snoc, filter_app, lookup_insert.
  case_decide as Hk.
  - rewrite filter_cons_True, filter_nil by done. by rewrite last_snoc.
  - rewrite filter_cons_False, filter_nil, app_nil_r by done. done.
Qed.

Lemma build_sheet_mapping_Some (names : list string) (key original : string) :
  build_sheet_mapping names !! key = Some original ->
  original ∈ names /\ normalize_sheet_name original = key.
Proof.
  rewrite build_sheet_mapping_lookup. intros Hlast.
  pose proof (last_Some_elem_of _ _ Hlast) as Hin.
  by pose proof (proj1 (list_elem_of_filter _ _ _) Hin) as [? ?].
Qed.

Lemma build_sheet_mapping_is_Some (names : list string) (key : string) :
  is_Some (build_sheet_mapping names !! key)
  <-> exists n, n ∈ names /\ normalize_sheet_name n = key.
Proof.
  split.
  - intros [original H]. exists original. by apply build_sheet_mapping_Some.
  - intros (n & Hn & Hkey). rewrite build_sheet_mapping_lookup.
    destruct (last _) as [x|] eqn:Hlast; [by eexists |].
    apply last_None in Hlast.
    assert (n ∈ filter (fun n => normalize_sheet_name n = key) names) as Hin
      by (by apply list_elem_of_filter).
    rewrite Hlast in Hin. by apply elem_of_nil in Hin.
Qed.

(** C2: [normalize_sheet_name] returns its argument with leading and
    trailing whitespace trimmed, letters lower-cased and every space and
    underscore removed (it is the one string the specification's wording
    describes, and holds no space, underscore or capital letter); the two
    names of the specification's example normalize to the same key; and a
    target matches a worksheet of the file exactly when some worksheet name
    has the same normalized form, the matched worksheet being one of
    them. *)
Theorem normalize_sheet_name_correct :
  (forall name r, normalize_spec name r <-> r = normalize_sheet_name name)
  /\ (forall name,
        all_chars (fun c => negb (is_space_or_underscore c) && negb (is_upper c))
          (normalize_sheet_name name) = true)
  /\ normalize_sheet_name " Final MR_AC " = normalize_sheet_name "finalmrac"
  /\ (forall names target,
        is_Some (build_sheet_mapping names !! normalize_sheet_name target)
        <-> exists n, n ∈ names
              /\ normalize_sheet_name n = normalize_sheet_name target)
  /\ (forall names target original,
        build_sheet_mapping names !! normalize_sheet_name target = Some original
        <-> last (filter (fun n => normalize_sheet_name n = normalize_sheet_name target)
                    names) = Some original).
Proof.
  split; [| split; [| split; [| split]]].
  - intros name r. rewrite normalize_sheet_name_filter. split.
    + intros (t & Ht & ->). by rewrite (trimmed_unique _ _ Ht).
    + intros ->. exists (strip name). split; [apply strip_trimmed | done].
  - intros name. rewrite normalize_sheet_name_filter.
    apply all_chars_and.
    + apply all_chars_filter_self.
    + apply all_chars_filter, lower_no_upper.
  - reflexivity.
  - intros names target. apply build_sheet_mapping_is_Some.
  - intros names target original. by rewrite build_sheet_mapping_lookup.
Qed.

End Normalizer.

(** ** The file processor *)

Section FileProcessor.
Import PyStr Pandas App.

Lemma dd_get_insert {A} (d : gmap string (list A)) (k k' : string) (xs : list A) :
  dd_get (<[k := xs]> d) k' = if decide (k = k') then xs else dd_get d k'.
Proof. unfold dd_get. rewrite lookup_insert. by case_decide. Qed.

Lemma entry_of_app {A} (xs ys : list A) :
  ys <> [] -> entry_of (xs ++ ys) = Some (xs ++ ys).
Proof. destruct xs, ys; done. Qed.

Lemma entry_of_default {A} (o : option (list A)) :
  o <> Some [] -> entry_of (default [] o) = o.
Proof. destruct o as [[|x xs]|]; done. Qed.

Lemma rows_of_frame_iterrows (file_name original_sheet : string) (df : DataFrame) :
  rows_of_frame file_name original_sheet df
  = map (fun ir => {| data := ir.2; source_file := file_name;
                      source_sheet := original_sheet; row_index := ir.1 |})
        (iterrows df).
Proof. unfold rows_of_frame, iterrows. by rewrite fmap_imap. Qed.

Lemma rows_of_frame_length (file_name original_sheet : string) (df : DataFrame) :
  length (rows_of_frame file_name original_sheet df) = df_len df.
Proof. apply length_imap. Qed.

Lemma rows_of_frame_nonempty (file_name original_sheet : string) (df : DataFrame) :
  df_empty df = false -> rows_of_frame file_name original_sheet df <> [].
Proof.
  unfold df_empty. intros [_ Hv]%orb_false_elim Hnil.
  apply (f_equal length) in Hnil. rewrite rows_of_frame_length in Hnil.
  unfold df_len in Hnil. rewrite Hnil in Hv. done.
Qed.

(** Appending the rows of a list one by one is one [extend]; no key is
    touched when there is no row. *)
Lemma foldl_dd_append {A B} (mk : B -> A) (k : string) (l : list B)
    (d : gmap string (list A)) :
  foldl (fun res x => dd_append k (mk x) res) d l
  = match l with [] => d | _ => <[k := dd_get d k ++ map mk l]> d end.
Proof.
  revert d. induction l as [|x l IH]; intros d; [done |].
  simpl. rewrite IH. destruct l as [|y l]; [done |].
  unfold dd_append. rewrite dd_get_insert, decide_True by done.
  by rewrite insert_insert_eq, <- app_assoc.
Qed.

Lemma extract_rows_eq (file_name target_sheet original_sheet : string)
    (df : DataFrame) (res : gmap string (list ExtractedRow)) :
  df_empty df = false ->
  extract_rows file_name target_sheet original_sheet df res
  = <[target_sheet := dd_get res target_sheet
                      ++ rows_of_frame file_name original_sheet df]> res.
Proof.
  intros Hne. unfold extract_rows.
  rewrite (foldl_dd_append
             (fun ir => {| data := ir.2; source_file := file_name;
                           source_sheet := original_sheet; row_index := ir.1 |})).
  rewrite <- rows_of_frame_iterrows.
  pose proof (rows_of_frame_nonempty file_name original_sheet df Hne) as Hrows.
  rewrite rows_of_frame_iterrows in Hrows.
  destruct (iterrows df); [done |]. by rewrite rows_of_frame_iterrows.
Qed.

(** One pass of the loop body, on [results]. *)
Lemma target_step_results (file_name : string) (xls : ExcelFile) (l : Loop)
    (target_sheet : string) :
  results (target_step file_name xls (build_sheet_mapping (sheet_names xls)) l target_sheet)
  = match target_rows file_name xls target_sheet with
    | [] => results l
    | rows => <[target_sheet := dd_get (results l) target_sheet ++ rows]> (results l)
    end.
Proof.
  unfold target_step, target_rows.
  destruct (build_sheet_mapping _ !! _) as [original_sheet|]; [| done].
  destruct (read_excel xls original_sheet) as [df|e]; [| done].
  destruct (df_empty df) eqn:Hempty; [done |]. simpl.
  rewrite extract_rows_eq by done.
  pose proof (rows_of_frame_nonempty file_name original_sheet df Hempty).
  by destruct (rows_of_frame _ _ _).
Qed.

(** The loop over [target_sheets], on [results]: under each key the rows
    of the targets equal to that key, in order; a key exists only with
    rows. *)
Lemma target_loop_results (file_name : string) (xls : ExcelFile)
    (target_sheets : list string) (l : Loop) (key : string) :
  results l !! key <> Some [] ->
  results (foldl (target_step file_name xls (build_sheet_mapping (sheet_names xls)))
             l target_sheets) !! key
  = entry_of (dd_get (results l) key
              ++ (filter (fun t => t = key) target_sheets
                    ≫= target_rows file_name xls)).
Proof.
  revert l. induction target_sheets as [|t ts IH]; intros l Hl.
  - simpl. rewrite app_nil_r. symmetry. by apply entry_of_default.
  - simpl. rewrite IH; rewrite target_step_results.
    + destruct (decide (t = key)) as [-> | Hne].
      * rewrite filter_cons_True by done. simpl.
        destruct (target_rows file_name xls key) as [|r rows] eqn:Hrows; [done |].
        rewrite dd_get_insert, decide_True by done. by rewrite <- app_assoc.
      * rewrite filter_cons_False by done.
        destruct (target_rows file_name xls t) as [|r rows]; [done |].
        rewrite dd_get_insert, decide_False by done. done.
    + destruct (target_rows file_name xls t) as [|r rows]; [done |].
      rewrite lookup_insert. case_decide; [| done].
      intros [= Happ]. by destruct (dd_get (results l) t).
Qed.

(** The mapping [process_excel_file] returns. *)
Lemma process_excel_file_results (tmp : gset nat) (file : UploadedFile)
    (target_sheets : list string) (key : string) :
  (process_excel_file tmp file target_sheets).1.1 !! key
  = entry_of (file_rows file target_sheets key).
Proof.
  unfold process_excel_file, file_rows.
  destruct (opened file) as [xls|e]; simpl; [| done].
  by rewrite target_loop_results.
Qed.

Lemma process_excel_file_dd_get (tmp : gset nat) (file : UploadedFile)
    (target_sheets : list string) (key : string) :
  dd_get (process_excel_file tmp file target_sheets).1.1 key
  = file_rows file target_sheets key.
Proof.
  unfold dd_get. rewrite process_excel_file_results.
  by destruct (file_rows _ _ _).
Qed.

End FileProcessor.

(** ** Rows extracted from one file *)

Section Extraction.
Import PyStr Pandas App Samples.

Lemma bind_filter_eq {A} (f : string -> list A) (t : string) (ts : list string) :
  filter (fun x => x = t) ts ≫= f
  = concat (replicate (length (filter (fun x => x = t) ts)) (f t)).
Proof.
  induction ts as [|x ts IH]; [done |].
  destruct (decide (x = t)) as [-> | Hne].
  - rewrite filter_cons_True by done. rewrite bind_cons, IH. done.
  - by rewrite filter_cons_False.
Qed.

Lemma elem_of_concat_replicate {A} (n : nat) (l : list A) (x : A) :
  x ∈ concat (replicate n l) -> x ∈ l.
Proof.
  induction n as [|n IH]; simpl.
  - intros H. by apply elem_of_nil in H.
  - intros [H | H]%elem_of_app; auto.
Qed.

Lemma filter_none {A} (P : A -> Prop) `{!forall x, Decision (P x)} (l : list A) :
  (forall x, x ∈ l -> ~ P x) -> filter P l = [].
Proof.
  induction l as [|x l IH]; intros Hall; [done |].
  rewrite filter_cons_False by (apply Hall; left).
  apply IH. intros y Hy. apply Hall. by right.
Qed.

Lemma rows_of_frame_lookup (file_name original_sheet : string) (df : DataFrame)
    (i : nat) (row : list Cell) :
  values df !! i = Some row ->
  rows_of_frame file_name original_sheet df !! i
  = Some {| data := to_dict (columns df) row; source_file := file_name;
            source_sheet := original_sheet; row_index := Z.of_nat i |}.
Proof. intros Hrow. unfold rows_of_frame. by rewrite list_lookup_imap, Hrow. Qed.

(** C1, as the code has it: when the file opens, the target's normalized
    form is a key of the worksheet lookup, and the matched worksheet reads
    as a non-empty frame, the rows returned under the user-supplied target
    name are the worksheet's rows, one [ExtractedRow] per data row, once
    for each occurrence of the target in the target list; the row at
    position [i] carries the row's cells, the file's display name, the
    matched worksheet's original name and the index [i]. *)
Theorem process_excel_file_rows (tmp : gset nat) (file : UploadedFile)
    (xls : ExcelFile) (target_sheets : list string)
    (target_sheet original_sheet : string) (df : DataFrame) :
  opened file = Returns xls ->
  build_sheet_mapping (sheet_names xls) !! normalize_sheet_name target_sheet
    = Some original_sheet ->
  read_excel xls original_sheet = Returns df ->
  df_empty df = false ->
  let occurrences := length (filter (fun t => t = target_sheet) target_sheets) in
  let sheet_rows := rows_of_frame (name file) original_sheet df in
  dd_get (process_excel_file tmp file target_sheets).1.1 target_sheet
    = concat (replicate occurrences sheet_rows)
  /\ length sheet_rows = df_len df
  /\ forall i row,
       values df !! i = Some row ->
       sheet_rows !! i
       = Some {| data := to_dict (columns df) row; source_file := name file;
                 source_sheet := original_sheet; row_index := Z.of_nat i |}.
Proof.
  intros Hopen Hmap Hread Hne. simpl. split; [| split].
  - rewrite process_excel_file_dd_get. unfold file_rows. rewrite Hopen.
    rewrite bind_filter_eq. unfold target_rows. by rewrite Hmap, Hread, Hne.
  - apply rows_of_frame_length.
  - intros i row. apply rows_of_frame_lookup.
Qed.

Lemma process_excel_file_rows_witness :
  dd_get (process_excel_file ∅ file_one ["Final MR_AC"; "Missing"]).1.1 "Final MR_AC"
  = [ {| data := [("a", CInt 1); ("b", CStr "x")]; source_file := "one.xlsx";
         source_sheet := "final mr_ac"; row_index := 0 |};
      {| data := [("a", CInt 2); ("b", CNaN)]; source_file := "one.xlsx";
         source_sheet := "final mr_ac"; row_index := 1 |} ].
Proof.
  pose proof (process_excel_file_rows ∅ file_one book_one
                ["Final MR_AC"; "Missing"] "Final MR_AC" "final mr_ac" frame_two
                eq_refl eq_refl eq_refl eq_refl) as [H _].
  exact H.
Defined.

(** C1 as stated fails when the user lists a target twice: the worksheet
    has two data rows and four rows come back under the target name. *)
Lemma duplicate_target_repeats_rows :
  let target_sheets := parse_target_sheets "Final MR_AC, Final MR_AC" in
  let rows :=
    dd_get (process_excel_file ∅ file_one target_sheets).1.1 "Final MR_AC" in
  target_sheets = ["Final MR_AC"; "Final MR_AC"]
  /\ opened file_one = Returns book_one
  /\ build_sheet_mapping (sheet_names book_one) !! normalize_sheet_name "Final MR_AC"
     = Some "final mr_ac"
  /\ read_excel book_one "final mr_ac" = Returns frame_two
  /\ df_len frame_two = 2
  /\ length rows = 4
  /\ rows <> rows_of_frame "one.xlsx" "final mr_ac" frame_two.
Proof. vm_compute. repeat split; done. Qed.

End Extraction.

(** ** Worksheets with one normalized name *)

Section Collisions.
Import PyStr Pandas App Samples.

Lemma find_sheet_middle (sheet_name : string) (content : Outcome DataFrame)
    (pre post : list (string * Outcome DataFrame)) :
  sheet_name ∉ pre.*1 ->
  find_sheet sheet_name (pre ++ (sheet_name, content) :: post) = Some content.
Proof.
  induction pre as [|[n o] pre IH]; simpl; intros Hnot.
  - by rewrite String.eqb_refl.
  - apply not_elem_of_cons in Hnot as [Hne Hnot].
    destruct (String.eqb_spec sheet_name n); [done | auto].
Qed.

Lemma target_step_file_log (file_name : string) (xls : ExcelFile)
    (sheet_mapping : gmap string string) (l : Loop) (target_sheet : string) :
  exists line,
    file_log (target_step file_name xls sheet_mapping l target_sheet)
    = file_log l ++ [line] /\ is_file_error line = false.
Proof.
  unfold target_step.
  destruct (sheet_mapping !! _) as [original_sheet|]; [| by eexists].
  destruct (read_excel xls original_sheet) as [df|e]; [| by eexists].
  destruct (df_empty df); by eexists.
Qed.

Lemma target_loop_file_log (file_name : string) (xls : ExcelFile)
    (sheet_mapping : gmap string string) (target_sheets : list string) (l : Loop) :
  Forall (fun line => is_file_error line = false) (file_log l) ->
  Forall (fun line => is_file_error line = false)
    (file_log (foldl (target_step file_name xls sheet_mapping) l target_sheets)).
Proof.
  revert l. induction target_sheets as [|t ts IH]; intros l Hl; [done |].
  simpl. apply IH.
  destruct (target_step_file_log file_name xls sheet_mapping l t)
    as (line & -> & Hline).
  apply Forall_app. split; [done | by constructor].
Qed.

(** C9: when several worksheets of a file normalize to the key of a
    target, the lookup holds exactly one of them under that key, the last
    in the order of the work book; the call takes its normal path (no
    file-level error line is logged), and every row returned for the
    target carries that worksheet's name and comes from its rows. *)
Theorem last_worksheet_wins (tmp : gset nat) (file : UploadedFile) (xls : ExcelFile)
    (target_sheets : list string) (target_sheet original_sheet : string)
    (content : Outcome DataFrame) (pre post : list (string * Outcome DataFrame)) :
  opened file = Returns xls ->
  sheets xls = pre ++ (original_sheet, content) :: post ->
  NoDup (sheet_names xls) ->
  normalize_sheet_name original_sheet = normalize_sheet_name target_sheet ->
  (forall n, n ∈ post.*1 ->
             normalize_sheet_name n <> normalize_sheet_name target_sheet) ->
  build_sheet_mapping (sheet_names xls) !! normalize_sheet_name target_sheet
    = Some original_sheet
  /\ Forall (fun line => is_file_error line = false)
       (process_excel_file tmp file target_sheets).1.2
  /\ forall r,
       r ∈ dd_get (process_excel_file tmp file target_sheets).1.1 target_sheet ->
       source_sheet r = original_sheet
       /\ exists df i row,
            content = Returns df /\ values df !! i = Some row
            /\ r = {| data := to_dict (columns df) row; source_file := name file;
                      source_sheet := original_sheet; row_index := Z.of_nat i |}.
Proof.
  intros Hopen Hsheets Hnodup Hnorm Hpost.
  assert (build_sheet_mapping (sheet_names xls) !! normalize_sheet_name target_sheet
          = Some original_sheet) as Hmap.
  { rewrite build_sheet_mapping_lookup. unfold sheet_names. rewrite Hsheets.
    rewrite fmap_app, fmap_cons, filter_app, filter_cons_True by done.
    assert (filter (fun n => normalize_sheet_name n = normalize_sheet_name target_sheet)
              post.*1 = []) as ->.
    { apply filter_none. intros n Hn. by apply Hpost. }
    by rewrite last_snoc. }
  assert (read_excel xls original_sheet = content) as Hread.
  { unfold read_excel. rewrite Hsheets, find_sheet_middle; [done |].
    unfold sheet_names in Hnodup. rewrite Hsheets, fmap_app in Hnodup.
    apply NoDup_app in Hnodup as (_ & Hdisj & _).
    intros Hin. apply (Hdisj _ Hin). simpl. left. }
  split; [done | split].
  - unfold process_excel_file. rewrite Hopen. simpl.
    apply Forall_app. split.
    + apply target_loop_file_log. simpl. by repeat constructor.
    + constructor; [| done]. by destruct (Nat.eqb _ 0).
  - intros r. rewrite process_excel_file_dd_get. unfold file_rows.
    rewrite Hopen, bind_filter_eq. intros Hr.
    apply elem_of_concat_replicate in Hr.
    unfold target_rows in Hr. rewrite Hmap, Hread in Hr.
    destruct content as [df|e]; [| by apply elem_of_nil in Hr].
    destruct (df_empty df); [by apply elem_of_nil in Hr |].
    apply elem_of_lookup_imap in Hr as (i & row & -> & Hrow).
    split; [done |]. by exists df, i, row.
Qed.

Lemma last_worksheet_wins_witness :
  build_sheet_mapping ["Summary"; "summary "] !! normalize_sheet_name "summary"
    = Some "summary "
  /\ forall r,
       r ∈ dd_get (process_excel_file ∅ file_collide ["summary"]).1.1 "summary" ->
       source_sheet r = "summary ".
Proof.
  pose proof (last_worksheet_wins ∅ file_collide
                {| sheets := [("Summary", Returns frame_one);
                              ("summary ", Returns frame_two)] |}
                ["summary"] "summary" "summary " (Returns frame_two)
                [("Summary", Returns frame_one)] []
                eq_refl eq_refl) as H.
  destruct H as (Hmap & _ & Hrows).
  - apply NoDup_cons. split; [| apply NoDup_singleton].
    intros Hin. apply list_elem_of_singleton in Hin. discriminate Hin.
  - reflexivity.
  - intros n Hn. simpl in Hn. by apply elem_of_nil in Hn.
  - split; [exact Hmap |]. intros r Hr. by destruct (Hrows r Hr).
Defined.

End Collisions.

(** ** The session: merging, the guard, the log, temporary files *)

Section Session.
Import PyStr Pandas App Samples.

(** Lines 245-246 on one key. *)
Lemma merge_results_lookup (current file_results : gmap string (list ExtractedRow))
    (key : string) :
  merge_results current file_results !! key
  = match file_results !! key with
    | Some rows => Some (dd_get current key ++ rows)
    | None => current !! key
    end.
Proof.
  unfold merge_results. revert key.
  apply (map_fold_weak_ind
           (fun merged (res : gmap string (list ExtractedRow)) =>
              forall key, merged !! key
                = match res !! key with
                  | Some rows => Some (dd_get current key ++ rows)
                  | None => current !! key
                  end)).
  - intros key. by rewrite lookup_empty.
  - intros sheet_name data_list res merged Hfresh IH key.
    unfold dd_extend. rewrite !lookup_insert.
    case_decide as Hk; [| apply IH].
    subst key. unfold dd_get. by rewrite IH, Hfresh.
Qed.

Lemma merge_results_dd_get (current file_results : gmap string (list ExtractedRow))
    (key : string) :
  dd_get (merge_results current file_results) key
  = dd_get current key ++ dd_get file_results key.
Proof.
  unfold dd_get at 1 3. rewrite merge_results_lookup.
  destruct (file_results !! key); simpl; [done | by rewrite app_nil_r].
Qed.

Lemma foldl_log_message (lines : list LogLine) (st : State) :
  foldl (fun s log_entry => log_message log_entry msg_type_default s) st lines
  = {| merged_data := merged_data st; processed_files := processed_files st;
       processing_log := processing_log st ++ map logged lines;
       tmp_files := tmp_files st |}.
Proof.
  revert st. induction lines as [|line lines IH]; intros st.
  - simpl. rewrite app_nil_r. by destruct st.
  - simpl. rewrite IH. simpl. by rewrite <- app_assoc.
Qed.

(** The body of the loop over the files, field by field. *)
Lemma process_one_eq (target_sheets : list string) (st : State) (file : UploadedFile) :
  process_one target_sheets st file
  = let r := process_excel_file (tmp_files st) file target_sheets in
    {| merged_data := merge_results (merged_data st) r.1.1;
       processed_files := {[name file]} ∪ processed_files st;
       processing_log := processing_log st ++ map logged r.1.2;
       tmp_files := r.2 |}.
Proof.
  unfold process_one.
  destruct (process_excel_file _ _ _) as [[file_results lines] tmp'].
  by rewrite foldl_log_message.
Qed.

Lemma process_one_lookup (target_sheets : list string) (st : State)
    (file : UploadedFile) (key : string) :
  merged_data (process_one target_sheets st file) !! key
  = match file_rows file target_sheets key with
    | [] => merged_data st !! key
    | rows => Some (dd_get (merged_data st) key ++ rows)
    end.
Proof.
  rewrite process_one_eq. simpl.
  rewrite merge_results_lookup, process_excel_file_results.
  by destruct (file_rows _ _ _).
Qed.

Lemma process_one_dd_get (target_sheets : list string) (st : State)
    (file : UploadedFile) (key : string) :
  dd_get (merged_data (process_one target_sheets st file)) key
  = dd_get (merged_data st) key ++ file_rows file target_sheets key.
Proof.
  rewrite process_one_eq. simpl.
  by rewrite merge_results_dd_get, process_excel_file_dd_get.
Qed.

Lemma process_one_processed (target_sheets : list string) (st : State)
    (file : UploadedFile) :
  processed_files (process_one target_sheets st file)
  = {[name file]} ∪ processed_files st.
Proof. by rewrite process_one_eq. Qed.

(** The loop over [files_to_process]. *)
Lemma process_loop_dd_get (target_sheets : list string) (files : list UploadedFile)
    (st : State) (key : string) :
  dd_get (merged_data (foldl (process_one target_sheets) st files)) key
  = dd_get (merged_data st) key
    ++ (files ≫= fun f => file_rows f target_sheets key).
Proof.
  revert st. induction files as [|f files IH]; intros st.
  - simpl. by rewrite app_nil_r.
  - simpl foldl. rewrite IH, process_one_dd_get, bind_cons. by rewrite <- app_assoc.
Qed.

Lemma process_loop_processed (target_sheets : list string) (files : list UploadedFile)
    (st : State) :
  processed_files (foldl (process_one target_sheets) st files)
  = list_to_set (name <$> files) ∪ processed_files st.
Proof.
  revert st. induction files as [|f files IH]; intros st.
  - simpl. set_solver.
  - simpl foldl. rewrite IH, process_one_processed. simpl. set_solver.
Qed.

Lemma process_loop_log (target_sheets : list string) (files : list UploadedFile)
    (st : State) :
  exists lines,
    processing_log (foldl (process_one target_sheets) st files)
    = processing_log st ++ map logged lines.
Proof.
  revert st. induction files as [|f files IH]; intros st.
  - exists []. simpl. by rewrite app_nil_r.
  - simpl foldl. destruct (IH (process_one target_sheets st f)) as [lines ->].
    rewrite process_one_eq. simpl.
    eexists (_ ++ lines). by rewrite map_app, app_assoc.
Qed.

Lemma processing_section_batch (uploaded_files : list UploadedFile)
    (target_sheets : list string) (preview_limit : option nat) (button : bool)
    (st : State) :
  processing_section uploaded_files target_sheets preview_limit button st
  = foldl (process_one target_sheets) st
      (batch_of uploaded_files target_sheets preview_limit button st).
Proof.
  unfold processing_section, batch_of.
  destruct uploaded_files as [|f fs]; destruct target_sheets as [|t ts];
    try done.
  - unfold new_files_of. rewrite filter_nil.
    destruct button, preview_limit; by rewrite ?take_nil.
  - destruct (new_files_of (f :: fs) st) as [|g gs] eqn:Hnew;
      destruct button, preview_limit; by rewrite ?take_nil.
Qed.

Lemma batch_of_sublist (uploaded_files : list UploadedFile)
    (target_sheets : list string) (preview_limit : option nat) (button : bool)
    (st : State) :
  batch_of uploaded_files target_sheets preview_limit button st
  `sublist_of` new_files_of uploaded_files st.
Proof.
  unfold batch_of. destruct target_sheets; [apply sublist_nil_l |].
  destruct button; [| apply sublist_nil_l].
  destruct preview_limit; [apply sublist_take | done].
Qed.

Lemma batch_of_elem (uploaded_files : list UploadedFile)
    (target_sheets : list string) (preview_limit : option nat) (button : bool)
    (st : State) (f : UploadedFile) :
  f ∈ batch_of uploaded_files target_sheets preview_limit button st ->
  f ∈ uploaded_files /\ name f ∉ processed_files st.
Proof.
  intros Hf.
  apply (sublist_subseteq _ _ (batch_of_sublist _ _ _ _ _)) in Hf.
  unfold new_files_of in Hf. apply list_elem_of_filter in Hf. tauto.
Qed.

Lemma batch_of_NoDup (uploaded_files : list UploadedFile)
    (target_sheets : list string) (preview_limit : option nat) (button : bool)
    (st : State) :
  NoDup (name <$> uploaded_files) ->
  NoDup (name <$> batch_of uploaded_files target_sheets preview_limit button st).
Proof.
  intros Hnodup.
  apply (sublist_NoDup _ (name <$> uploaded_files)); [exact Hnodup |].
  apply fmap_sublist.
  etrans; [apply batch_of_sublist |]. apply sublist_filter.
Qed.

(** With distinct display names, a name finds its own file. *)
Lemma matched_rows_of_own_name (uploaded_files : list UploadedFile)
    (target_sheets : list string) (key : string) (f : UploadedFile) :
  NoDup (name <$> uploaded_files) -> f ∈ uploaded_files ->
  matched_rows_of_name uploaded_files target_sheets key (name f)
  = length (file_rows f target_sheets key).
Proof.
  unfold matched_rows_of_name. intros Hnodup Hf.
  induction uploaded_files as [|g gs IH]; [by apply elem_of_nil in Hf |].
  rewrite fmap_cons in Hnodup. apply NoDup_cons in Hnodup as [Hg Hgs].
  simpl. case_decide as Hname.
  - apply elem_of_cons in Hf as [-> | Hf]; [done |].
    exfalso. apply Hg. rewrite Hname. by apply list_elem_of_fmap_2.
  - apply elem_of_cons in Hf as [-> | Hf]; [done |].
    specialize (IH Hgs Hf).
    destruct (list_find _ gs) as [[i h]|]; simpl; done.
Qed.

Lemma process_one_counted (uploaded_files : list UploadedFile)
    (target_sheets : list string) (st : State) (f : UploadedFile) :
  NoDup (name <$> uploaded_files) ->
  f ∈ uploaded_files -> name f ∉ processed_files st ->
  counted uploaded_files target_sheets st ->
  counted uploaded_files target_sheets (process_one target_sheets st f).
Proof.
  intros Hnodup Hf Hnew Hst key.
  rewrite process_one_dd_get, process_one_processed, length_app, Hst.
  rewrite (elements_union_singleton _ _ Hnew). simpl.
  rewrite matched_rows_of_own_name by done. lia.
Qed.

Lemma process_loop_counted (uploaded_files : list UploadedFile)
    (target_sheets : list string) (files : list UploadedFile) (st : State) :
  NoDup (name <$> uploaded_files) ->
  NoDup (name <$> files) ->
  (forall f, f ∈ files -> f ∈ uploaded_files /\ name f ∉ processed_files st) ->
  counted uploaded_files target_sheets st ->
  counted uploaded_files target_sheets (foldl (process_one target_sheets) st files).
Proof.
  intros Hnodup. revert st.
  induction files as [|f files IH]; intros st Hfiles Hall Hst; [done |].
  rewrite fmap_cons in Hfiles. apply NoDup_cons in Hfiles as [Hf Hfiles].
  simpl foldl. apply IH; [done | |].
  - intros g Hg. destruct (Hall g) as [HgU Hgnew]; [by right |].
    split; [done |]. rewrite process_one_processed.
    intros [Hsame%elem_of_singleton | Hold]%elem_of_union; [| done].
    apply Hf. rewrite <- Hsame. by apply list_elem_of_fmap_2.
  - destruct (Hall f) as [HfU Hfnew]; [left |].
    by apply process_one_counted.
Qed.

Lemma processing_section_counted (uploaded_files : list UploadedFile)
    (target_sheets : list string) (preview_limit : option nat) (button : bool)
    (st : State) :
  NoDup (name <$> uploaded_files) ->
  counted uploaded_files target_sheets st ->
  counted uploaded_files target_sheets
    (processing_section uploaded_files target_sheets preview_limit button st).
Proof.
  intros Hnodup Hst. rewrite processing_section_batch.
  apply process_loop_counted; [done | by apply batch_of_NoDup | | done].
  intros f. apply batch_of_elem.
Qed.

Lemma batch_of_all_processed (uploaded_files : list UploadedFile)
    (target_sheets : list string) (preview_limit : option nat) (button : bool)
    (st : State) :
  (forall f, f ∈ uploaded_files -> name f ∈ processed_files st) ->
  batch_of uploaded_files target_sheets preview_limit button st = [].
Proof.
  intros Hall.
  assert (new_files_of uploaded_files st = []) as Hnew.
  { apply filter_none. intros f Hf Hnot. by apply Hnot, Hall. }
  unfold batch_of. rewrite Hnew.
  destruct target_sheets, button, preview_limit; by rewrite ?take_nil.
Qed.

(** C3, for uploaded files with pairwise distinct display names: after
    any number of runs of the processing section over the same uploaded
    files and target names, started from a new session, the number of rows
    under each target name is the sum, over the names in [processed_files]
    (each counted once), of the rows the file of that name yields; a run
    appends rows only for files whose name is not yet in
    [processed_files]; and once every uploaded name is in it, a further
    run changes nothing. *)
Theorem reprocessing_guard (uploaded_files : list UploadedFile)
    (target_sheets : list string) (runs : list (option nat * bool))
    (tmp : gset nat) :
  NoDup (name <$> uploaded_files) ->
  let step := fun st (r : option nat * bool) =>
                processing_section uploaded_files target_sheets r.1 r.2 st in
  let st := foldl step (initial_state tmp) runs in
  (forall key,
     length (dd_get (merged_data st) key)
     = sum_list_with (matched_rows_of_name uploaded_files target_sheets key)
         (elements (processed_files st)))
  /\ (forall r, exists batch,
        (forall f, f ∈ batch -> f ∈ uploaded_files /\ name f ∉ processed_files st)
        /\ forall key,
             dd_get (merged_data (step st r)) key
             = dd_get (merged_data st) key
               ++ (batch ≫= fun f => file_rows f target_sheets key))
  /\ ((forall f, f ∈ uploaded_files -> name f ∈ processed_files st) ->
      forall r, step st r = st).
Proof.
  intros Hnodup step st. split; [| split].
  - change (counted uploaded_files target_sheets st). subst st.
    induction runs as [|r runs IH] using rev_ind.
    + intros key. simpl. unfold dd_get. by rewrite lookup_empty, elements_empty.
    + rewrite foldl_app. simpl. by apply processing_section_counted.
  - intros r. exists (batch_of uploaded_files target_sheets r.1 r.2 st). split.
    + intros f. apply batch_of_elem.
    + intros key. subst step. simpl.
      by rewrite processing_section_batch, process_loop_dd_get.
  - intros Hall r. subst step. simpl.
    by rewrite processing_section_batch, batch_of_all_processed.
Qed.

Lemma reprocessing_guard_witness :
  let st1 := processing_section [file_one; file_twin_a] ["Final MR_AC"; "S"]
               (Some 1) true (initial_state ∅) in
  let st2 := processing_section [file_one; file_twin_a] ["Final MR_AC"; "S"]
               None true st1 in
  length (dd_get (merged_data st2) "Final MR_AC")
  = sum_list_with
      (matched_rows_of_name [file_one; file_twin_a] ["Final MR_AC"; "S"] "Final MR_AC")
      (elements (processed_files st2)).
Proof.
  assert (NoDup (name <$> [file_one; file_twin_a])) as Hnodup.
  { apply NoDup_cons. split; [| apply NoDup_singleton].
    intros Hin. apply list_elem_of_singleton in Hin. discriminate Hin. }
  pose proof (reprocessing_guard [file_one; file_twin_a] ["Final MR_AC"; "S"]
                [(Some 1, true); (None, true)] ∅ Hnodup) as [Hcount _].
  exact (Hcount "Final MR_AC").
Defined.

(** C3 as stated fails for two uploaded files with one display name: both
    are new when the run starts, both are processed, and the rows under
    the target are the rows of two files although one name was
    processed. *)
Lemma same_name_counted_twice :
  let uploaded_files := [file_twin_a; file_twin_b] in
  let st1 := processing_section uploaded_files ["S"] None true (initial_state ∅) in
  let st2 := processing_section uploaded_files ["S"] None true st1 in
  elements (processed_files st2) = ["same.xlsx"]
  /\ length (file_rows file_twin_a ["S"] "S") = 1
  /\ length (file_rows file_twin_b ["S"] "S") = 1
  /\ length (dd_get (merged_data st2) "S") = 2
  /\ length (dd_get (merged_data st2) "S")
     <> sum_list_with (matched_rows_of_name uploaded_files ["S"] "S")
          (elements (processed_files st2)).
Proof. vm_compute. repeat split; done. Qed.

(** C10, as the code has it: the guard looks at the display name only,
    and only when a run starts.  An uploaded file whose name is already in
    [processed_files] is left out of the run, whatever its contents: the
    run is the run over the other uploaded files, state, log and temporary
    files included. *)
Theorem processed_name_is_skipped (before after : list UploadedFile)
    (file : UploadedFile) (target_sheets : list string)
    (preview_limit : option nat) (button : bool) (st : State) :
  name file ∈ processed_files st ->
  processing_section (before ++ file :: after) target_sheets preview_limit button st
  = processing_section (before ++ after) target_sheets preview_limit button st.
Proof.
  intros Hdone. rewrite !processing_section_batch.
  f_equal. unfold batch_of, new_files_of.
  rewrite !filter_app, filter_cons_False; [done |].
  intros Hnot. by apply Hnot.
Qed.

Lemma processed_name_is_skipped_witness :
  let st := processing_section [file_twin_a] ["S"] None true (initial_state ∅) in
  processing_section [file_one; file_twin_b] ["S"] None true st
  = processing_section [file_one] ["S"] None true st.
Proof.
  apply (processed_name_is_skipped [file_one] [] file_twin_b ["S"] None true).
  vm_compute. apply (bool_decide_unpack _). vm_compute. exact I.
Defined.

(** C10 as stated fails when the two files with one display name are both
    new in the same run: the second is processed too, and its row is
    stored. *)
Lemma same_name_same_run_both_processed :
  let st := processing_section [file_twin_a; file_twin_b] ["S"] None true
              (initial_state ∅) in
  name file_twin_a = name file_twin_b
  /\ opened file_twin_a <> opened file_twin_b
  /\ data <$> dd_get (merged_data st) "S" = [[("a", CInt 7)]; [("a", CInt 8)]]
  /\ file_rows file_twin_b ["S"] "S"
     = [ {| data := [("a", CInt 8)]; source_file := "same.xlsx";
            source_sheet := "S"; row_index := 0 |} ].
Proof. vm_compute. repeat split; done. Qed.

(** The aggregation state is the history of processed files: a key
    exists exactly with the rows the history yields under it. *)
Lemma process_one_history (history : list (UploadedFile * list string))
    (target_sheets : list string) (st : State) (file : UploadedFile) :
  (forall key, merged_data st !! key = entry_of (history_rows history key)) ->
  forall key,
    merged_data (process_one target_sheets st file) !! key
    = entry_of (history_rows (history ++ [(file, target_sheets)]) key).
Proof.
  intros Hst key. rewrite process_one_lookup. unfold history_rows.
  rewrite bind_app, bind_singleton. simpl.
  destruct (file_rows file target_sheets key) as [|r rows] eqn:Hrows.
  - by rewrite app_nil_r.
  - unfold dd_get. rewrite Hst. fold (history_rows history key).
    destruct (history_rows history key); done.
Qed.

Lemma process_loop_history (history : list (UploadedFile * list string))
    (target_sheets : list string) (files : list UploadedFile) (st : State) :
  (forall key, merged_data st !! key = entry_of (history_rows history key)) ->
  forall key,
    merged_data (foldl (process_one target_sheets) st files) !! key
    = entry_of (history_rows
                  (history ++ ((fun f => (f, target_sheets)) <$> files)) key).
Proof.
  revert history st. induction files as [|f files IH]; intros history st Hst key.
  - simpl. by rewrite app_nil_r.
  - simpl foldl. rewrite fmap_cons, cons_middle, app_assoc.
    apply IH. by apply process_one_history.
Qed.

Lemma history_rows_nonempty (history : list (UploadedFile * list string))
    (key : string) :
  history_rows history key <> []
  <-> exists f ts, (f, ts) ∈ history /\ file_rows f ts key <> [].
Proof.
  unfold history_rows. induction history as [|[f ts] history IH].
  - split; [done |]. intros (f & ts & Hin & _). by apply elem_of_nil in Hin.
  - rewrite bind_cons. simpl. split.
    + intros Hne. destruct (file_rows f ts key) as [|r rows] eqn:Hrows.
      * apply IH in Hne as (g & ts' & Hin & Hg). exists g, ts'. split; [by right | done].
      * exists f, ts. split; [left | by rewrite Hrows].
    + intros (g & ts' & Hin & Hg) Hnil. apply app_eq_nil in Hnil as [Hf Hrest].
      apply elem_of_cons in Hin as [[= -> ->] | Hin]; [done |].
      apply (proj2 IH); [by exists g, ts' | done].
Qed.

(** The session and its history, action by action. *)
Lemma record_action_state (tmp : gset nat) (actions : list Action) :
  (foldl record_action (initial_state tmp, []) actions).1 = run_session tmp actions.
Proof.
  unfold run_session. induction actions as [|a actions IH] using rev_ind; [done |].
  rewrite !foldl_app. simpl. by rewrite IH.
Qed.

Lemma session_history_snoc (tmp : gset nat) (actions : list Action) (a : Action) :
  session_history tmp (actions ++ [a])
  = match a with
    | Run uploaded_files target_sheets preview_limit button =>
        session_history tmp actions
        ++ ((fun f => (f, target_sheets))
              <$> batch_of uploaded_files target_sheets preview_limit button
                    (run_session tmp actions))
    | ResetAll => []
    | ClearLog => session_history tmp actions
    end.
Proof.
  unfold session_history. rewrite foldl_app. simpl.
  by rewrite record_action_state.
Qed.

Lemma session_history_invariant (tmp : gset nat) (actions : list Action) :
  processed_files (run_session tmp actions)
    = list_to_set ((fun p => name p.1) <$> session_history tmp actions)
  /\ forall key,
       merged_data (run_session tmp actions) !! key
       = entry_of (history_rows (session_history tmp actions) key).
Proof.
  induction actions as [|a actions (Hset & Hinv)] using rev_ind.
  - split; [done |]. intros key. simpl. by rewrite lookup_empty.
  - rewrite session_history_snoc. unfold run_session in *. rewrite foldl_app. simpl.
    destruct a as [uploaded_files target_sheets preview_limit button| |]; simpl.
    + rewrite processing_section_batch. split.
      * rewrite process_loop_processed, Hset.
        rewrite fmap_app, list_to_set_app_L, <- list_fmap_compose.
        apply (comm_L (∪)).
      * intros key. by apply process_loop_history.
    + split; [done |]. intros key. simpl. by rewrite lookup_empty.
    + done.
Qed.

(** A file yields rows under a key exactly when a row of it matches the
    key. *)
Lemma file_rows_matched (file : UploadedFile) (target_sheets : list string)
    (key : string) :
  file_rows file target_sheets key <> [] <-> matched file target_sheets key.
Proof.
  unfold file_rows, matched. destruct (opened file) as [xls|e].
  - rewrite bind_filter_eq. unfold target_rows. split.
    + intros Hne.
      destruct (filter (fun x => x = key) target_sheets) as [|t ts] eqn:Hfilter;
        [done |].
      assert (key ∈ target_sheets) as Hkey.
      { assert (t ∈ filter (fun x => x = key) target_sheets) as Ht
          by (rewrite Hfilter; left).
        apply list_elem_of_filter in Ht as [-> Ht]. done. }
      destruct (build_sheet_mapping _ !! _) as [original_sheet|] eqn:Hmap.
      * destruct (read_excel xls original_sheet) as [df|e] eqn:Hread.
        -- destruct (df_empty df) eqn:Hempty.
           ++ exfalso. apply Hne. clear. induction (length (t :: ts)); done.
           ++ by exists xls, original_sheet, df.
        -- exfalso. apply Hne. clear. induction (length (t :: ts)); done.
      * exfalso. apply Hne. clear. induction (length (t :: ts)); done.
    + intros (xls' & original_sheet & df & [= <-] & Hkey & -> & -> & Hempty).
      rewrite Hempty.
      assert (key ∈ filter (fun x => x = key) target_sheets) as Hin
        by (by apply list_elem_of_filter).
      destruct (filter (fun x => x = key) target_sheets) as [|t ts];
        [by apply elem_of_nil in Hin |].
      simpl. intros [Hnil _]%app_eq_nil.
      by apply (rows_of_frame_nonempty (name file) original_sheet df).
  - split; [done |]. by intros (xls & ? & ? & [=] & _).
Qed.

(** C5: merging the results of a file appends, under each of its keys,
    its rows after the rows already stored (an absent key is created),
    keeps every other key, and drops nothing.  A run of the processing
    section is the loop body applied to the files of its batch, and these
    files, with the target names of the run, form the history of the
    session since the last reset.  After any sequence of user actions the
    names in [processed_files] are the names of the files of that history,
    the rows stored under a key are the rows these files yield under it,
    in processing order, and a key exists exactly when a row of one of
    these files has matched it; no key holds an empty sequence. *)
Theorem aggregation_state_invariant :
  (forall current file_results key,
     merge_results current file_results !! key
     = match file_results !! key with
       | Some rows => Some (dd_get current key ++ rows)
       | None => current !! key
       end)
  /\ (forall uploaded_files target_sheets preview_limit button st,
        processing_section uploaded_files target_sheets preview_limit button st
        = foldl (process_one target_sheets) st
            (batch_of uploaded_files target_sheets preview_limit button st))
  /\ (forall tmp, session_history tmp [] = [])
  /\ (forall tmp actions a,
        session_history tmp (actions ++ [a])
        = match a with
          | Run uploaded_files target_sheets preview_limit button =>
              session_history tmp actions
              ++ ((fun f => (f, target_sheets))
                    <$> batch_of uploaded_files target_sheets preview_limit button
                          (run_session tmp actions))
          | ResetAll => []
          | ClearLog => session_history tmp actions
          end)
  /\ forall tmp actions,
       processed_files (run_session tmp actions)
         = list_to_set ((fun p => name p.1) <$> session_history tmp actions)
       /\ forall key,
            dd_get (merged_data (run_session tmp actions)) key
              = history_rows (session_history tmp actions) key
            /\ (is_Some (merged_data (run_session tmp actions) !! key)
                <-> exists file target_sheets,
                      (file, target_sheets) ∈ session_history tmp actions
                      /\ matched file target_sheets key)
            /\ merged_data (run_session tmp actions) !! key <> Some [].
Proof.
  split; [apply merge_results_lookup |].
  split; [apply processing_section_batch |].
  split; [done |].
  split; [apply session_history_snoc |].
  intros tmp actions.
  destruct (session_history_invariant tmp actions) as (Hset & Hinv).
  split; [done |]. intros key. unfold dd_get. rewrite Hinv.
  assert ((exists file target_sheets,
             (file, target_sheets) ∈ session_history tmp actions
             /\ matched file target_sheets key)
          <-> history_rows (session_history tmp actions) key <> []) as ->.
  { rewrite history_rows_nonempty. split.
    - intros (f & ts & Hin & Hm). exists f, ts. by rewrite file_rows_matched.
    - intros (f & ts & Hin & Hm). exists f, ts. by rewrite <- file_rows_matched. }
  destruct (history_rows (session_history tmp actions) key) as [|r rows]; simpl.
  - split; [done | split; [| done]]. split; [by intros [? ?] | done].
  - split; [done | split; [| done]]. split; [done | by eexists].
Qed.




(** C7 on the code: every entry a run of the processing section adds to
    the session log has type [info], because the loop calls [log_message]
    without a message type.  For a file with a worksheet that has no data
    row and a worksheet that cannot be read, the two lines are logged, the
    remaining target is still processed, and all entries have type
    [info]. *)
Theorem log_entries_are_info :
  (forall uploaded_files target_sheets preview_limit button st,
     exists lines,
       processing_log
         (processing_section uploaded_files target_sheets preview_limit button st)
       = processing_log st
         ++ map (fun line => {| message := line; type := info |}) lines)
  /\ processing_log
       (processing_section [file_one] ["summary"; "bad"; "Final MR_AC"] None true
          (initial_state ∅))
     = [ {| message := ProcessingFile "one.xlsx"; type := info |};
         {| message := FoundSheets 3 ["Summary"; "final mr_ac"; "Bad"]; type := info |};
         {| message := SheetIsEmpty "Summary"; type := info |};
         {| message := ErrorReadingSheet "Bad" "boom"; type := info |};
         {| message := FoundSheet "final mr_ac" 2 2; type := info |};
         {| message := SuccessfullyProcessed 1; type := info |} ].
Proof.
  split; [| reflexivity].
  intros uploaded_files target_sheets preview_limit button st.
  rewrite processing_section_batch. apply process_loop_log.
Qed.

(** C8 on the code: the temporary file is removed when the work book
    opens, whatever happens to its worksheets, and is left behind when
    opening raises, since [os.unlink] is the last statement of the [try]
    block.  After a file that is not a work book, the next file is
    processed with the temporary file still there. *)
Theorem temporary_file_left_on_open_failure :
  (forall tmp file target_sheets,
     match opened file with
     | Returns _ => (process_excel_file tmp file target_sheets).2 = tmp
     | Raises _ =>
         (process_excel_file tmp file target_sheets).2 = {[fresh tmp]} ∪ tmp
         /\ fresh tmp ∉ tmp
     end)
  /\ elements (process_excel_file ∅ file_broken ["Final MR_AC"]).2 = [0]
  /\ elements (tmp_files (process_one ["Final MR_AC"] (initial_state ∅) file_broken))
     = [0]
  /\ elements
       (tmp_files (foldl (process_one ["Final MR_AC"]) (initial_state ∅)
                     [file_broken; file_one]))
     = [0].
Proof.
  split; [| by vm_compute].
  intros tmp file target_sheets. unfold process_excel_file.
  pose proof (is_fresh tmp) as Hfresh.
  destruct (opened file) as [xls|e]; simpl.
  - set_solver.
  - done.
Qed.

End Session.

(** ** The exporter *)

Section Exporter.
Import PyStr Pandas App Samples.

Lemma dict_get_set (k k' : string) (v : Cell) (d : Record_) :
  dict_get k' (dict_set k v d) = if String.eqb k' k then Some v else dict_get k' d.
Proof.
  induction d as [|[k0 v0] d IH]; simpl; [done |].
  destruct (String.eqb_spec k k0) as [-> | Hk]; simpl.
  - by destruct (String.eqb k' k0).
  - destruct (String.eqb_spec k' k0) as [-> | Hk'].
    + destruct (String.eqb_spec k0 k); [by subst | done].
    + apply IH.
Qed.

Lemma dict_keys_set (k c : string) (v : Cell) (d : Record_) :
  c ∈ dict_keys (dict_set k v d) <-> c = k \/ c ∈ dict_keys d.
Proof.
  unfold dict_keys. induction d as [|[k0 v0] d IH]; simpl.
  - rewrite list_elem_of_singleton. split; [by left |]. intros [? | H]; [done |].
    by apply elem_of_nil in H.
  - destruct (String.eqb_spec k k0) as [-> | Hk]; simpl.
    + rewrite elem_of_cons. tauto.
    + rewrite !elem_of_cons, IH. tauto.
Qed.

(** The columns gathered from the keys of one dict. *)
Lemma add_keys_elem (keys cols : list string) (c : string) :
  c ∈ foldl (fun cs k => if bool_decide (k ∈ cs) then cs else cs ++ [k]) cols keys
  <-> c ∈ cols \/ c ∈ keys.
Proof.
  revert cols. induction keys as [|k keys IH]; intros cols; simpl.
  - split; [by left |]. intros [? | H]; [done | by apply elem_of_nil in H].
  - rewrite IH, elem_of_cons. case_bool_decide as Hk.
    + split; [tauto |]. intros [? | [-> | ?]]; tauto.
    + rewrite elem_of_app, list_elem_of_singleton. tauto.
Qed.

Lemma add_keys_NoDup (keys cols : list string) :
  NoDup cols ->
  NoDup (foldl (fun cs k => if bool_decide (k ∈ cs) then cs else cs ++ [k]) cols keys).
Proof.
  revert cols. induction keys as [|k keys IH]; intros cols Hcols; simpl; [done |].
  apply IH. case_bool_decide as Hk; [done |].
  apply NoDup_app. split; [done | split; [| apply NoDup_singleton]].
  intros x Hx Hxk. apply list_elem_of_singleton in Hxk. by subst.
Qed.

Lemma union_columns_from (records : list Record_) (cols : list string) (c : string) :
  c ∈ foldl (fun cols d =>
               foldl (fun cs k => if bool_decide (k ∈ cs) then cs else cs ++ [k])
                     cols (dict_keys d))
            cols records
  <-> c ∈ cols \/ exists d, d ∈ records /\ c ∈ dict_keys d.
Proof.
  revert cols. induction records as [|d records IH]; intros cols; simpl.
  - split; [by left |]. intros [? | (d & H & _)]; [done | by apply elem_of_nil in H].
  - rewrite IH, add_keys_elem. split.
    + intros [[? | ?] | (d' & Hd' & Hc)].
      * by left.
      * right. exists d. split; [left | done].
      * right. exists d'. split; [by right | done].
    + intros [? | (d' & Hd' & Hc)]; [by left; left |].
      apply elem_of_cons in Hd' as [-> | Hd'].
      * left. by right.
      * right. by exists d'.
Qed.

Lemma union_columns_elem (records : list Record_) (c : string) :
  c ∈ union_columns records <-> exists d, d ∈ records /\ c ∈ dict_keys d.
Proof.
  unfold union_columns. rewrite union_columns_from. split; [| by right].
  intros [H | ?]; [by apply elem_of_nil in H | done].
Qed.

Lemma union_columns_from_NoDup (records : list Record_) (cols : list string) :
  NoDup cols ->
  NoDup (foldl (fun cols d =>
                  foldl (fun cs k => if bool_decide (k ∈ cs) then cs else cs ++ [k])
                        cols (dict_keys d))
               cols records).
Proof.
  revert cols. induction records as [|d records IH]; intros cols Hcols; [done |].
  simpl. apply IH. by apply add_keys_NoDup.
Qed.

Lemma union_columns_NoDup (records : list Record_) : NoDup (union_columns records).
Proof. apply union_columns_from_NoDup, NoDup_nil_2. Qed.

Lemma index_of_elem (c : string) (cols : list string) :
  c ∈ cols -> exists j, index_of c cols = Some j /\ cols !! j = Some c.
Proof.
  induction cols as [|c' cols IH]; intros Hc; [by apply elem_of_nil in Hc |].
  simpl. destruct (String.eqb_spec c c') as [-> | Hne].
  - by exists 0.
  - apply elem_of_cons in Hc as [? | Hc]; [done |].
    destruct (IH Hc) as (j & -> & Hj). by exists (S j).
Qed.

(** A cell of the table built from a list of dicts. *)
Lemma DataFrame_of_records_cell (records : list Record_) (i : nat) (d : Record_)
    (c : string) :
  records !! i = Some d -> c ∈ union_columns records ->
  df_cell (DataFrame_of_records records) i c
  = Some (astype (infer_dtype (column_of c records)) (default CNaN (dict_get c d))).
Proof.
  intros Hd Hc. unfold df_cell, DataFrame_of_records. simpl.
  rewrite list_lookup_fmap, Hd. simpl.
  destruct (index_of_elem c _ Hc) as (j & -> & Hj). simpl.
  by rewrite list_lookup_fmap, Hj.
Qed.


(** The dtype of a column and what it does to a cell. *)
Lemma astype_not_int (dtype : Dtype) (x : Cell) :
  is_int x = false -> astype dtype x = x.
Proof. by destruct dtype, x. Qed.

Lemma astype_cases (dtype : Dtype) (x : Cell) :
  astype dtype x = x \/ exists z, x = CInt z /\ astype dtype x = float_of_int z.
Proof. destruct dtype, x; simpl; eauto. Qed.

Lemma astype_no_float (cells : list Cell) (x : Cell) :
  existsb is_float cells = false -> astype (infer_dtype cells) x = x.
Proof.
  intros Hfloat. unfold infer_dtype. rewrite Hfloat.
  destruct (existsb is_str cells); [done |].
  destruct (existsb is_bool cells); [by destruct (forallb is_bool cells) |].
  by destruct (int_out_of_range cells).
Qed.

Lemma existsb_map_false {A} (p : Cell -> bool) (f : A -> Cell) (l : list A) :
  (forall a, a ∈ l -> p (f a) = false) -> existsb p (map f l) = false.
Proof.
  induction l as [|a l IH]; intros Hall; [done |].
  simpl. rewrite (Hall a) by left. simpl. apply IH. intros b Hb. apply Hall. by right.
Qed.

Lemma column_of_map {A} (f : A -> Record_) (c : string) (l : list A) :
  column_of c (map f l) = map (fun a => default CNaN (dict_get c (f a))) l.
Proof. unfold column_of. by rewrite map_map. Qed.



Lemma create_individual_excel_file_nonempty (sheet_name : string)
    (data_list : list ExtractedRow) :
  data_list <> [] ->
  create_individual_excel_file sheet_name data_list
  = match to_excel (DataFrame_of_records (map export_row data_list)) with
    | Some e => ExportRaises e
    | None =>
        Output (Some {| doc_sheet := "Data";
                        doc_table := DataFrame_of_records (map export_row data_list) |})
    end.
Proof. by destruct data_list. Qed.





End Exporter.

(** ** More on the normalizer: what matching ignores *)

Section MatchingIgnores.
Import PyStr Pandas App Page.

Lemma isspace_lower_char (c : ascii) : isspace (lower_char c) = isspace c.
Proof. destruct c as [[] [] [] [] [] [] [] []]; reflexivity. Qed.

Lemma lower_char_idem (c : ascii) : lower_char (lower_char c) = lower_char c.
Proof. destruct c as [[] [] [] [] [] [] [] []]; reflexivity. Qed.

Lemma lower_char_is_space (c : ascii) :
  Ascii.eqb (lower_char c) " " = Ascii.eqb c " ".
Proof. destruct c as [[] [] [] [] [] [] [] []]; reflexivity. Qed.

Lemma lower_idem (s : string) : lower (lower s) = lower s.
Proof.
  induction s as [|c s IH]; simpl; [done |]. by rewrite lower_char_idem, IH.
Qed.

Lemma lstrip_lower (s : string) : lstrip (lower s) = lower (lstrip s).
Proof.
  induction s as [|c s IH]; simpl; [done |].
  rewrite isspace_lower_char. by destruct (isspace c).
Qed.

Lemma rstrip_lower (s : string) : rstrip (lower s) = lower (rstrip s).
Proof.
  induction s as [|c s IH]; simpl; [done |].
  rewrite IH, isspace_lower_char.
  destruct (rstrip s); simpl; [by destruct (isspace c) | done].
Qed.

Lemma strip_lower (s : string) : strip (lower s) = lower (strip s).
Proof. unfold strip. by rewrite lstrip_lower, rstrip_lower. Qed.

Lemma normalize_sheet_name_lower (s : string) :
  normalize_sheet_name (lower s) = normalize_sheet_name s.
Proof. unfold normalize_sheet_name. by rewrite strip_lower, lower_idem. Qed.

Lemma filter_chars_app (p : ascii -> bool) (a b : string) :
  filter_chars p (a +:+ b) = filter_chars p a +:+ filter_chars p b.
Proof.
  induction a as [|c a IH]; str_simpl; [done |].
  destruct (p c); str_simpl; by rewrite IH.
Qed.

Lemma last_char_is_Some (c : ascii) (s : string) : is_Some (last_char (String c s)).
Proof.
  revert c. induction s as [|c' s IH]; intros c; simpl; [by eexists | apply IH].
Qed.

Lemma last_char_filter (p : ascii -> bool) (t : string) :
  (forall c, last_char t = Some c -> p c = true) ->
  last_char (filter_chars p t) = last_char t.
Proof.
  induction t as [|a t IH]; [done |].
  destruct t as [|b t'].
  - intros Hlast. simpl. by rewrite (Hlast a).
  - intros Hlast. specialize (IH Hlast).
    change (filter_chars p (String a (String b t')))
      with (if p a then String a (filter_chars p (String b t'))
            else filter_chars p (String b t')).
    change (last_char (String a (String b t'))) with (last_char (String b t')).
    destruct (p a); [| done].
    destruct (filter_chars p (String b t')) as [|x f] eqn:Hf; [| done].
    destruct (last_char_is_Some b t') as [y Hy]. rewrite Hy in IH. done.
Qed.

Lemma lower_filter_chars (p : ascii -> bool) (s : string) :
  (forall c, p (lower_char c) = p c) ->
  lower (filter_chars p s) = filter_chars p (lower s).
Proof.
  intros Hp. induction s as [|c s IH]; simpl; [done |].
  rewrite Hp. destruct (p c); simpl; by rewrite IH.
Qed.

Lemma trimmed_without_spaces (s t : string) :
  trimmed s t -> trimmed (without_spaces s) (without_spaces t).
Proof.
  intros (pre & post & -> & Hpre & Hpost & Hfirst & Hlast).
  exists (without_spaces pre), (without_spaces post). unfold without_spaces.
  rewrite !filter_chars_app. repeat split.
  - by apply all_chars_filter.
  - by apply all_chars_filter.
  - destruct t as [|a t]; [done |]. simpl.
    assert (isspace a = false) as Ha by (by apply Hfirst).
    destruct (Ascii.eqb_spec a " ") as [-> | _]; [done |]. simpl.
    by intros c [= <-].
  - intros c. rewrite last_char_filter; [apply Hlast |].
    intros c' Hc'. apply Hlast in Hc'.
    by destruct (Ascii.eqb_spec c' " ") as [-> | _].
Qed.

Lemma normalize_sheet_name_without_spaces (s : string) :
  normalize_sheet_name (without_spaces s) = normalize_sheet_name s.
Proof.
  rewrite !normalize_sheet_name_filter.
  rewrite <- (trimmed_unique _ _ (trimmed_without_spaces _ _ (strip_trimmed s))).
  unfold without_spaces.
  rewrite lower_filter_chars by (intros c; by rewrite lower_char_is_space).
  rewrite filter_chars_twice. apply filter_chars_ext.
  intros c. unfold is_space_or_underscore. by destruct (Ascii.eqb c " ").
Qed.

(** X1: For names in the Latin-1 range (the strings of this development),
    matching is case and space insensitive, as the page says: two such
    names that differ only in the case of letters and in space characters
    have the same normalized form. *)
Theorem matching_ignores_case_and_spaces (s1 s2 : string) :
  without_spaces (lower s1) = without_spaces (lower s2) ->
  normalize_sheet_name s1 = normalize_sheet_name s2.
Proof.
  intros Heq.
  rewrite <- (normalize_sheet_name_lower s1), <- (normalize_sheet_name_lower s2).
  rewrite <- (normalize_sheet_name_without_spaces (lower s1)).
  rewrite <- (normalize_sheet_name_without_spaces (lower s2)).
  by rewrite Heq.
Qed.

Lemma matching_ignores_case_and_spaces_witness :
  normalize_sheet_name " Final  MR ac" = normalize_sheet_name "FINAL mrAC ".
Proof. apply matching_ignores_case_and_spaces. reflexivity. Defined.

End MatchingIgnores.

(** ** The target names typed by the user *)

Section TargetInput.
Import PyStr Pandas App Page.

Lemma all_chars_impl (p q : ascii -> bool) (s : string) :
  (forall c, p c = true -> q c = true) ->
  all_chars p s = true -> all_chars q s = true.
Proof.
  intros Hpq. induction s as [|c s IH]; simpl; [done |].
  intros [Hc Hs]%andb_prop. by rewrite (Hpq c Hc), IH.
Qed.

Lemma all_chars_lstrip (q : ascii -> bool) (s : string) :
  all_chars q s = true -> all_chars q (lstrip s) = true.
Proof.
  induction s as [|c s IH]; simpl; [done |].
  intros [Hc Hs]%andb_prop. destruct (isspace c); simpl; [auto |].
  by rewrite Hc, Hs.
Qed.

Lemma all_chars_rstrip (q : ascii -> bool) (s : string) :
  all_chars q s = true -> all_chars q (rstrip s) = true.
Proof.
  induction s as [|c s IH]; simpl; [done |].
  intros [Hc Hs]%andb_prop. specialize (IH Hs).
  destruct (rstrip s) as [|c' r].
  - destruct (isspace c); simpl; [done | by rewrite Hc].
  - simpl in *. by rewrite Hc.
Qed.

Lemma all_chars_strip (q : ascii -> bool) (s : string) :
  all_chars q s = true -> all_chars q (strip s) = true.
Proof. intros Hs. by apply all_chars_rstrip, all_chars_lstrip. Qed.

Lemma strip_idem (s : string) : strip (strip s) = strip s.
Proof.
  symmetry. apply trimmed_unique.
  destruct (strip_trimmed s) as (_ & _ & _ & _ & _ & Hfirst & Hlast).
  exists EmptyString, EmptyString. str_simpl.
  by rewrite append_empty_r.
Qed.

Lemma split_nonempty (sep : ascii) (s : string) : split sep s <> [].
Proof.
  destruct s as [|c s]; simpl; [done |].
  destruct (Ascii.eqb c sep); [done |]. by destruct (split sep s).
Qed.

Lemma split_pieces (sep : ascii) (s piece : string) :
  piece ∈ split sep s ->
  all_chars (fun c => negb (Ascii.eqb c sep)) piece = true.
Proof.
  revert piece. induction s as [|c s IH]; intros piece; simpl.
  - by intros ->%list_elem_of_singleton.
  - destruct (Ascii.eqb c sep) eqn:Hc.
    + intros [-> | Hin]%elem_of_cons; [done | auto].
    + destruct (split sep s) as [|p ps]; simpl.
      * intros ->%list_elem_of_singleton. simpl. by rewrite Hc.
      * intros [-> | Hin]%elem_of_cons.
        -- simpl. rewrite Hc. simpl. apply IH. left.
        -- apply IH. by right.
Qed.

(** X2: What the parser returns: names that are not empty, hold no comma and
    no whitespace at either end; nothing at all when the input is blank. *)
Theorem parse_target_sheets_well_formed (sheet_input : string) :
  (forall t, t ∈ parse_target_sheets sheet_input -> well_formed_target t)
  /\ length (parse_target_sheets sheet_input) <= length (split "," sheet_input)
  /\ (all_chars isspace sheet_input = true -> parse_target_sheets sheet_input = []).
Proof.
  unfold parse_target_sheets. split; [| split].
  - intros t. destruct (truthy (strip sheet_input)); [| by intros H%elem_of_nil].
    intros (p & -> & Hp)%list_elem_of_fmap.
    apply list_elem_of_In, filter_In in Hp as [Hp Htruthy].
    apply list_elem_of_In in Hp. split; [| split].
    + by destruct (strip p).
    + apply strip_idem.
    + by apply all_chars_strip, (split_pieces _ sheet_input).
  - destruct (truthy (strip sheet_input)); [| simpl; lia].
    rewrite length_map. apply List.filter_length_le.
  - intros Hblank. unfold strip.
    by rewrite (lstrip_all_space _ Hblank).
Qed.

Lemma split_no_sep (sep : ascii) (s : string) :
  all_chars (fun c => negb (Ascii.eqb c sep)) s = true -> split sep s = [s].
Proof.
  induction s as [|c s IH]; simpl; [done |].
  intros [Hc Hs]%andb_prop. apply negb_true_iff in Hc. rewrite Hc, (IH Hs). done.
Qed.

Lemma split_prepend (sep : ascii) (w s : string) :
  all_chars (fun c => negb (Ascii.eqb c sep)) w = true ->
  split sep (w +:+ s)
  = match split sep s with
    | piece :: pieces => (w +:+ piece) :: pieces
    | [] => []
    end.
Proof.
  induction w as [|c w IH]; str_simpl.
  - intros _. by destruct (split sep s).
  - intros [Hc Hw]%andb_prop. apply negb_true_iff in Hc.
    rewrite Hc, (IH Hw). pose proof (split_nonempty sep s).
    by destruct (split sep s).
Qed.

Lemma split_join (w : string) (t : string) (ts : list string) :
  all_chars (fun c => negb (Ascii.eqb c ",")) w = true ->
  (forall x, x ∈ t :: ts ->
             all_chars (fun c => negb (Ascii.eqb c ",")) x = true) ->
  split "," (join (String "," w) (t :: ts)) = t :: map (fun x => w +:+ x) ts.
Proof.
  intros Hw. revert t. induction ts as [|t' ts IH]; intros t Hall.
  - simpl. apply split_no_sep, Hall. left.
  - change (join (String "," w) (t :: t' :: ts))
      with (t +:+ String "," w +:+ join (String "," w) (t' :: ts)).
    rewrite split_prepend by (apply Hall; left).
    str_simpl. rewrite split_prepend by done.
    rewrite IH by (intros x Hx; apply Hall; by right).
    by rewrite append_empty_r.
Qed.

Lemma well_formed_first (t : string) (c : ascii) :
  well_formed_target t -> first_char t = Some c -> isspace c = false.
Proof.
  intros (_ & Hstrip & _).
  destruct (strip_trimmed t) as (_ & _ & _ & _ & _ & Hfirst & _).
  rewrite Hstrip in Hfirst. apply Hfirst.
Qed.

Lemma strip_padded (w t : string) :
  all_chars isspace w = true -> well_formed_target t -> strip (w +:+ t) = t.
Proof.
  intros Hw (_ & Hstrip & _). unfold strip.
  rewrite (lstrip_app_space _ _ Hw). apply Hstrip.
Qed.

Lemma strip_first_nonspace (c : ascii) (s : string) :
  isspace c = false -> strip (String c s) <> EmptyString.
Proof.
  intros Hc. unfold strip. simpl. rewrite Hc. simpl.
  rewrite Hc. by destruct (rstrip s).
Qed.

(** X3: Round trip of the input field: well-formed names typed with a comma
    between them, followed by any whitespace, are read back as the same
    list, in order. *)
Theorem parse_target_sheets_join (w : string) (ts : list string) :
  all_chars isspace w = true ->
  (forall t, t ∈ ts -> well_formed_target t) ->
  parse_target_sheets (join (String "," w) ts) = ts.
Proof.
  intros Hw Hts. destruct ts as [|t ts]; [done |].
  assert (all_chars (fun c => negb (Ascii.eqb c ",")) w = true) as Hw'.
  { revert Hw. apply all_chars_impl.
    intros c Hc. by destruct (Ascii.eqb_spec c ",") as [-> | _]. }
  unfold parse_target_sheets.
  assert (truthy (strip (join (String "," w) (t :: ts))) = true) as ->.
  { destruct (Hts t) as (Hne & Hstrip & Hcomma); [left |].
    destruct t as [|c t']; [done |].
    assert (isspace c = false) as Hc
      by (apply (well_formed_first (String c t')); [apply Hts; left | done]).
    assert (exists rest, join (String "," w) (String c t' :: ts) = String c rest)
      as [rest ->].
    { destruct ts; simpl; str_simpl; by eexists. }
    pose proof (strip_first_nonspace c rest Hc).
    by destruct (strip (String c rest)). }
  rewrite split_join; [| done | intros x Hx; by apply Hts].
  assert (forall l : list string,
            (forall x, x ∈ l -> well_formed_target x) ->
            map strip (List.filter (fun sheet => truthy (strip sheet))
                         (map (fun x => w +:+ x) l)) = l) as Hrest.
  { induction l as [|x l IH]; intros Hl; [done |].
    simpl. rewrite (strip_padded w x Hw) by (apply Hl; left).
    destruct (Hl x) as (Hne & _ & _); [left |].
    destruct x as [|c x']; [done |]. simpl.
    rewrite (strip_padded w (String c x') Hw) by (apply Hl; left).
    f_equal. apply IH. intros y Hy. apply Hl. by right. }
  simpl. destruct (Hts t) as (Hne & Hstrip & _); [left |].
  rewrite Hstrip. destruct t as [|c t']; [done |]. simpl.
  rewrite Hstrip. f_equal. apply Hrest. intros x Hx. apply Hts. by right.
Qed.

Lemma parse_target_sheets_join_witness :
  parse_target_sheets "Final MR_AC, final MR, Summary"
  = ["Final MR_AC"; "final MR"; "Summary"].
Proof.
  apply (parse_target_sheets_join " " ["Final MR_AC"; "final MR"; "Summary"]).
  - reflexivity.
  - intros t Ht. repeat (apply elem_of_cons in Ht as [-> | Ht]);
      [| | | by apply elem_of_nil in Ht]; repeat split; discriminate.
Defined.

End TargetInput.

(** ** The log and the mapping of one file *)

Section FileLog.
Import PyStr Pandas App Page.

Lemma target_step_line (file_name : string) (xls : ExcelFile) (l : Loop)
    (target_sheet : string) :
  file_log (target_step file_name xls (build_sheet_mapping (sheet_names xls)) l
              target_sheet)
  = file_log l ++ [target_line xls target_sheet].
Proof.
  unfold target_step, target_line.
  destruct (build_sheet_mapping _ !! _) as [original_sheet|]; [| done].
  destruct (read_excel xls original_sheet) as [df|e]; [| done].
  by destruct (df_empty df).
Qed.

Lemma target_step_matches (file_name : string) (xls : ExcelFile) (l : Loop)
    (target_sheet : string) :
  matches_found (target_step file_name xls (build_sheet_mapping (sheet_names xls)) l
                   target_sheet)
  = matches_found l
    + (if decide (target_rows file_name xls target_sheet <> []) then 1 else 0).
Proof.
  unfold target_step, target_rows.
  destruct (build_sheet_mapping _ !! _) as [original_sheet|]; simpl; [| lia].
  destruct (read_excel xls original_sheet) as [df|e]; simpl; [| lia].
  destruct (df_empty df) eqn:Hempty; simpl; [lia |].
  rewrite decide_True; [done |]. by apply rows_of_frame_nonempty.
Qed.

Lemma target_loop_log (file_name : string) (xls : ExcelFile)
    (target_sheets : list string) (l : Loop) :
  let l' := foldl (target_step file_name xls (build_sheet_mapping (sheet_names xls)))
              l target_sheets in
  file_log l' = file_log l ++ (target_line xls <$> target_sheets)
  /\ matches_found l'
     = matches_found l
       + length (filter (fun t => target_rows file_name xls t <> []) target_sheets)
  /\ ((results l = ∅ <-> matches_found l = 0)
      -> (results l' = ∅ <-> matches_found l' = 0)).
Proof.
  revert l. induction target_sheets as [|t ts IH]; intros l.
  - cbv zeta. simpl foldl. rewrite filter_nil, app_nil_r. simpl.
    split; [done | split; [lia | done]].
  - destruct (IH (target_step file_name xls
                    (build_sheet_mapping (sheet_names xls)) l t))
      as (Hlog & Hmatches & Hempty).
    cbv zeta. simpl foldl. split; [| split].
    + rewrite Hlog, target_step_line, fmap_cons, <- app_assoc. done.
    + rewrite Hmatches, target_step_matches, filter_cons. simpl.
      repeat case_decide; simpl; try done; lia.
    + intros Hl. apply Hempty.
      rewrite target_step_results, target_step_matches.
      case_decide as Hrows.
      * destruct (target_rows file_name xls t) as [|r rows]; [done |].
        split; [intros H; by apply insert_non_empty in H | lia].
      * rewrite Hrows, Nat.add_0_r. done.
Qed.

Lemma target_line_not_found (xls : ExcelFile) (t t' : string) :
  target_line xls t' = SheetNotFound t
  <-> t' = t
      /\ build_sheet_mapping (sheet_names xls) !! normalize_sheet_name t = None.
Proof.
  unfold target_line. split.
  - destruct (build_sheet_mapping _ !! normalize_sheet_name t') as [o|] eqn:Hmap.
    + destruct (read_excel xls o) as [df|e]; [destruct (df_empty df) |]; done.
    + intros [= ->]. done.
  - intros [-> ->]. done.
Qed.

(** X4: The log of a file that opens: two opening lines, one line for each
    target in order, one closing line.  The closing line says that nothing
    matched exactly when the returned mapping is empty; otherwise it
    counts the targets that yielded rows.  A target is reported as not
    found exactly when no worksheet name has its normalized form. *)
Theorem file_log_structure (tmp : gset nat) (file : UploadedFile) (xls : ExcelFile)
    (target_sheets : list string) :
  opened file = Returns xls ->
  let file_results := (process_excel_file tmp file target_sheets).1.1 in
  let file_log := (process_excel_file tmp file target_sheets).1.2 in
  let matched :=
    length (filter (fun t => target_rows (name file) xls t <> []) target_sheets) in
  length file_log = length target_sheets + 3
  /\ file_log !! 0 = Some (ProcessingFile (name file))
  /\ file_log !! 1
     = Some (FoundSheets (length (sheet_names xls)) (sheet_names xls))
  /\ (last file_log = Some NoMatchingSheets <-> file_results = ∅)
  /\ (file_results <> ∅ -> last file_log = Some (SuccessfullyProcessed matched))
  /\ forall t,
       SheetNotFound t ∈ file_log
       <-> t ∈ target_sheets
           /\ ~ exists n, n ∈ sheet_names xls
                  /\ normalize_sheet_name n = normalize_sheet_name t.
Proof.
  intros Hopen. unfold process_excel_file. rewrite Hopen. simpl.
  destruct (target_loop_log (name file) xls target_sheets
              {| results := ∅;
                 file_log := [ProcessingFile (name file);
                              FoundSheets (length (sheet_names xls)) (sheet_names xls)];
                 matches_found := 0 |}) as (Hlog & Hmatches & Hempty).
  simpl in Hlog, Hmatches, Hempty. specialize (Hempty (conj (fun _ => eq_refl) (fun _ => eq_refl))).
  rewrite Hlog, Hmatches. simpl.
  split; [by rewrite length_app, length_fmap; simpl; lia |].
  split; [done | split; [done |]].
  rewrite Hmatches in Hempty.
  set (matched := length (filter _ target_sheets)) in *.
  rewrite !app_comm_cons, !last_snoc.
  split; [| split].
  - rewrite Hempty. destruct matched; simpl; split; done.
  - intros Hne. destruct matched; simpl; [| done].
    exfalso. by apply Hne, Hempty.
  - intros t. rewrite <- build_sheet_mapping_is_Some, <- eq_None_not_Some.
    rewrite elem_of_app, list_elem_of_singleton, !elem_of_cons, list_elem_of_fmap.
    split.
    + intros [[? | [? | (t' & Ht' & Hin)]] | Hsum]; try done.
      * symmetry in Ht'. apply target_line_not_found in Ht' as [-> ?]. done.
      * by destruct matched.
    + intros [Hin Hnone]. left. right. right. exists t. split; [| done].
      symmetry. by apply target_line_not_found.
Qed.

Lemma file_log_structure_witness :
  (process_excel_file ∅ Samples.file_one ["Final MR_AC"; "Missing"]).1.2
  !! 0 = Some (ProcessingFile "one.xlsx")
  /\ SheetNotFound "Missing"
     ∈ (process_excel_file ∅ Samples.file_one ["Final MR_AC"; "Missing"]).1.2.
Proof.
  destruct (file_log_structure ∅ Samples.file_one Samples.book_one
              ["Final MR_AC"; "Missing"] eq_refl) as (_ & H0 & _ & _ & _ & Hnf).
  split; [exact H0 |]. apply Hnf. split.
  - right. left.
  - intros (n & Hn & Hnorm).
    repeat (apply elem_of_cons in Hn as [-> | Hn]); try discriminate Hnorm.
    by apply elem_of_nil in Hn.
Defined.

(** X5: The order in which the targets are listed does not change what is
    extracted: a permutation of the target names gives the same mapping. *)
Theorem target_order_is_irrelevant (tmp : gset nat) (file : UploadedFile)
    (target_sheets target_sheets' : list string) :
  target_sheets ≡ₚ target_sheets' ->
  (process_excel_file tmp file target_sheets).1.1
  = (process_excel_file tmp file target_sheets').1.1.
Proof.
  intros Hperm. apply map_eq. intros key.
  rewrite !process_excel_file_results. unfold file_rows.
  destruct (opened file) as [xls|e]; [| done].
  rewrite !bind_filter_eq. by rewrite Hperm.
Qed.

Lemma target_order_is_irrelevant_witness :
  (process_excel_file ∅ Samples.file_one ["Final MR_AC"; "summary"; "Missing"]).1.1
  = (process_excel_file ∅ Samples.file_one ["Missing"; "summary"; "Final MR_AC"]).1.1.
Proof.
  apply target_order_is_irrelevant.
  etrans; [apply Permutation_swap |].
  etrans; [apply Permutation_skip, Permutation_swap |].
  apply Permutation_swap.
Defined.

End FileLog.

(** ** Sessions: reset, log clearing, limits, and what a run keeps *)

Section SessionActions.
Import PyStr Pandas App Page.

Lemma process_excel_file_tmp (tmp tmp' : gset nat) (file : UploadedFile)
    (target_sheets : list string) :
  (process_excel_file tmp file target_sheets).1
  = (process_excel_file tmp' file target_sheets).1.
Proof. unfold process_excel_file. by destruct (opened file). Qed.

Lemma process_one_session_data (target_sheets : list string) (st st' : State)
    (file : UploadedFile) :
  session_data st = session_data st' ->
  session_data (process_one target_sheets st file)
  = session_data (process_one target_sheets st' file).
Proof.
  unfold session_data. intros [= Hm Hp Hl]. rewrite !process_one_eq. simpl.
  rewrite Hm, Hp, Hl.
  by rewrite (process_excel_file_tmp (tmp_files st) (tmp_files st')).
Qed.

Lemma process_loop_session_data (target_sheets : list string)
    (files : list UploadedFile) (st st' : State) :
  session_data st = session_data st' ->
  session_data (foldl (process_one target_sheets) st files)
  = session_data (foldl (process_one target_sheets) st' files).
Proof.
  revert st st'. induction files as [|f files IH]; intros st st' Hst; [done |].
  simpl. by apply IH, process_one_session_data.
Qed.

Lemma batch_of_processed (uploaded_files : list UploadedFile)
    (target_sheets : list string) (preview_limit : option nat) (button : bool)
    (st st' : State) :
  processed_files st = processed_files st' ->
  batch_of uploaded_files target_sheets preview_limit button st
  = batch_of uploaded_files target_sheets preview_limit button st'.
Proof. intros Hp. unfold batch_of, new_files_of. by rewrite Hp. Qed.

Lemma run_action_session_data (a : Action) (st st' : State) :
  session_data st = session_data st' ->
  session_data (run_action st a) = session_data (run_action st' a).
Proof.
  intros Hst. destruct a as [uploaded_files target_sheets preview_limit button| |].
  - simpl. rewrite !processing_section_batch.
    rewrite (batch_of_processed _ _ _ _ st st') by (by injection Hst).
    by apply process_loop_session_data.
  - done.
  - unfold session_data in *. simpl. by injection Hst as -> -> _.
Qed.

Lemma run_actions_session_data (actions : list Action) (st st' : State) :
  session_data st = session_data st' ->
  session_data (foldl run_action st actions)
  = session_data (foldl run_action st' actions).
Proof.
  revert st st'. induction actions as [|a actions IH]; intros st st' Hst; [done |].
  simpl. by apply IH, run_action_session_data.
Qed.

(** X6: "Reset All" forgets the session: whatever was done before it, the
    merged data, the processed names and the log after the actions that
    follow are those of a new session with the same actions, so a file
    processed before the reset is processed again as on a first run. *)
Theorem reset_starts_a_new_session (tmp tmp' : gset nat)
    (before after : list Action) :
  session_data (run_session tmp (before ++ ResetAll :: after))
  = session_data (run_session tmp' after).
Proof.
  unfold run_session. rewrite foldl_app. simpl.
  by apply run_actions_session_data.
Qed.

Lemma process_loop_same_data (target_sheets : list string)
    (files : list UploadedFile) (st st' : State) :
  merged_data st = merged_data st' ->
  processed_files st = processed_files st' ->
  tmp_files st = tmp_files st' ->
  merged_data (foldl (process_one target_sheets) st files)
  = merged_data (foldl (process_one target_sheets) st' files)
  /\ processed_files (foldl (process_one target_sheets) st files)
     = processed_files (foldl (process_one target_sheets) st' files)
  /\ tmp_files (foldl (process_one target_sheets) st files)
     = tmp_files (foldl (process_one target_sheets) st' files).
Proof.
  revert st st'. induction files as [|f files IH]; intros st st' Hm Hp Ht; [done |].
  simpl. apply IH; rewrite !process_one_eq; simpl; by rewrite ?Hm, ?Hp, ?Ht.
Qed.

(** X7: The merged data and the processed names never depend on the log:
    pressing "Clear Log" at any points of a session changes neither of
    them, nor the temporary files. *)
Theorem clear_log_keeps_the_data (tmp : gset nat) (actions : list Action) :
  let st := run_session tmp actions in
  let st' := run_session tmp (List.filter (fun a => negb (is_clear_log a)) actions) in
  merged_data st = merged_data st'
  /\ processed_files st = processed_files st'
  /\ tmp_files st = tmp_files st'.
Proof.
  unfold run_session. induction actions as [|a actions IH] using rev_ind; [done |].
  rewrite List.filter_app, !foldl_app. simpl List.filter.
  set (st := foldl run_action (initial_state tmp) actions) in *.
  set (st' := foldl run_action (initial_state tmp) (List.filter _ actions)) in *.
  simpl in IH. destruct IH as (Hm & Hp & Ht).
  destruct a as [uploaded_files target_sheets preview_limit button| |]; simpl.
  - rewrite !processing_section_batch.
    rewrite (batch_of_processed _ _ _ _ st st' Hp).
    by apply process_loop_same_data.
  - done.
  - done.
Qed.

Lemma all_processed_after_run (uploaded_files : list UploadedFile)
    (t : string) (ts : list string) (st : State) (f : UploadedFile) :
  f ∈ uploaded_files ->
  name f ∈ processed_files (processing_section uploaded_files (t :: ts) None true st).
Proof.
  intros Hf. rewrite processing_section_batch, process_loop_processed.
  unfold batch_of. destruct (decide (name f ∈ processed_files st)) as [Hin | Hnot].
  - set_solver.
  - apply elem_of_union. left. apply elem_of_list_to_set.
    apply list_elem_of_fmap_2. unfold new_files_of.
    by apply list_elem_of_filter.
Qed.

(** X8: The guard does not look at the target names: after a run over the
    uploaded files without a limit, a further run over these files with
    any other list of target names changes nothing. *)
Theorem new_targets_do_not_reprocess (uploaded_files : list UploadedFile)
    (t : string) (ts target_sheets' : list string)
    (preview_limit : option nat) (button : bool) (st : State) :
  processing_section uploaded_files target_sheets' preview_limit button
    (processing_section uploaded_files (t :: ts) None true st)
  = processing_section uploaded_files (t :: ts) None true st.
Proof.
  rewrite (processing_section_batch uploaded_files target_sheets').
  rewrite batch_of_all_processed; [done |].
  intros f Hf. by apply all_processed_after_run.
Qed.

End SessionActions.

(** ** The file limit *)

Section FileLimit.
Import PyStr Pandas App Page.

Lemma new_files_after_prefix (uploaded_files : list UploadedFile) (m : nat)
    (st : State) :
  NoDup (name <$> uploaded_files) ->
  processed_files st = list_to_set (name <$> take m uploaded_files) ->
  new_files_of uploaded_files st = drop m uploaded_files.
Proof.
  intros Hnodup Hp. unfold new_files_of. rewrite Hp.
  rewrite <- (take_drop m uploaded_files) at 1.
  rewrite <- (take_drop m uploaded_files), fmap_app in Hnodup.
  apply NoDup_app in Hnodup as (_ & Hdisj & _).
  rewrite filter_app.
  assert (filter (fun f => name f ∉ (list_to_set (name <$> take m uploaded_files)
                                      : gset string))
            (take m uploaded_files) = []) as ->.
  { apply filter_none. intros f Hf Hnot. apply Hnot.
    apply elem_of_list_to_set. by apply list_elem_of_fmap_2. }
  simpl.
  generalize (drop m uploaded_files) Hdisj. intros l Hl.
  induction l as [|f l IH]; [done |].
  rewrite filter_cons_True.
  - f_equal. apply IH. intros x Hx Hin. apply (Hl x Hx).
    rewrite fmap_cons. by right.
  - intros Hin%elem_of_list_to_set. apply (Hl _ Hin). rewrite fmap_cons. left.
Qed.

Lemma limited_runs (uploaded_files : list UploadedFile) (t : string)
    (ts : list string) (n k : nat) (tmp : gset nat) :
  NoDup (name <$> uploaded_files) ->
  Nat.iter k (processing_section uploaded_files (t :: ts) (Some n) true)
    (initial_state tmp)
  = foldl (process_one (t :: ts)) (initial_state tmp) (take (k * n) uploaded_files).
Proof.
  intros Hnodup. induction k as [|k IH]; [done |].
  simpl Nat.iter. rewrite IH, processing_section_batch.
  unfold batch_of.
  rewrite (new_files_after_prefix uploaded_files (k * n)); [| done |].
  - rewrite <- foldl_app, take_take_drop.
    by rewrite <- Nat.mul_succ_l.
  - rewrite process_loop_processed. simpl. set_solver.
Qed.

(** X9: Processing in batches: with pairwise distinct display names, pressing
    "Process Files" [k] times with the limit [n] in a new session leaves
    the session, log and temporary files included, as one run without a
    limit does, as soon as [k * n] reaches the number of uploaded files. *)
Theorem batches_equal_one_run (uploaded_files : list UploadedFile)
    (target_sheets : list string) (n k : nat) (tmp : gset nat) :
  NoDup (name <$> uploaded_files) ->
  length uploaded_files <= k * n ->
  Nat.iter k (processing_section uploaded_files target_sheets (Some n) true)
    (initial_state tmp)
  = processing_section uploaded_files target_sheets None true (initial_state tmp).
Proof.
  intros Hnodup Hlen. destruct target_sheets as [|t ts].
  - assert (forall st, processing_section uploaded_files [] (Some n) true st = st)
      as Hid by (intros st; unfold processing_section; by destruct uploaded_files).
    assert (processing_section uploaded_files [] None true (initial_state tmp)
            = initial_state tmp) as ->
      by (unfold processing_section; by destruct uploaded_files).
    clear Hlen. induction k as [|k IH]; [done |]. simpl. by rewrite Hid.
  - rewrite limited_runs by done. rewrite take_ge by done.
    rewrite processing_section_batch. unfold batch_of. f_equal.
    symmetry. apply (new_files_after_prefix uploaded_files 0); [done |].
    simpl. done.
Qed.

Lemma batches_equal_one_run_witness :
  let uploaded_files := [Samples.file_one; Samples.file_twin_a; Samples.file_broken] in
  processing_section uploaded_files ["Final MR_AC"; "S"] (Some 2) true
    (processing_section uploaded_files ["Final MR_AC"; "S"] (Some 2) true
       (initial_state ∅))
  = processing_section uploaded_files ["Final MR_AC"; "S"] None true (initial_state ∅).
Proof.
  apply (batches_equal_one_run
           [Samples.file_one; Samples.file_twin_a; Samples.file_broken]
           ["Final MR_AC"; "S"] 2 2 ∅).
  - repeat (apply NoDup_cons; split); [| | | apply NoDup_nil_2];
      rewrite ?elem_of_cons, ?elem_of_nil; intros H;
      repeat destruct H as [H | H]; done.
  - simpl. lia.
Defined.

End FileLimit.

(** ** What a run keeps, counts and stores *)

Section SessionInvariants.
Import PyStr Pandas App Page.

Lemma process_excel_file_tmp_files (tmp : gset nat) (file : UploadedFile)
    (target_sheets : list string) :
  (process_excel_file tmp file target_sheets).2
  = if opens file then tmp else {[fresh tmp]} ∪ tmp.
Proof.
  unfold process_excel_file, opens. pose proof (is_fresh tmp).
  destruct (opened file); simpl; [set_solver | done].
Qed.

Lemma process_one_tmp_files (target_sheets : list string) (st : State)
    (file : UploadedFile) :
  tmp_files (process_one target_sheets st file)
  = if opens file then tmp_files st else {[fresh (tmp_files st)]} ∪ tmp_files st.
Proof. rewrite process_one_eq. simpl. apply process_excel_file_tmp_files. Qed.

(** X10: Temporary files: a batch leaves behind exactly one temporary file for
    each of its files that does not open, and removes none that was
    there. *)
Theorem temporary_files_of_a_batch (target_sheets : list string)
    (files : list UploadedFile) (st : State) :
  let st' := foldl (process_one target_sheets) st files in
  size (tmp_files st')
  = size (tmp_files st) + length (filter (fun f => opens f = false) files)
  /\ tmp_files st ⊆ tmp_files st'.
Proof.
  revert st. induction files as [|f files IH]; intros st.
  - cbv zeta. simpl foldl. split; [rewrite filter_nil; simpl; lia | done].
  - cbv zeta. simpl foldl.
    destruct (IH (process_one target_sheets st f)) as [Hsize Hsub].
    rewrite process_one_tmp_files in Hsize, Hsub.
    rewrite Hsize, filter_cons. destruct (opens f) eqn:Hopens.
    + rewrite decide_False by done. done.
    + rewrite decide_True by done. split.
      * rewrite size_union by (pose proof (is_fresh (tmp_files st)); set_solver).
        rewrite size_singleton. simpl. lia.
      * set_solver.
Qed.

Lemma process_one_is_Some (target_sheets : list string) (st : State)
    (file : UploadedFile) (key : string) :
  is_Some (merged_data st !! key) ->
  is_Some (merged_data (process_one target_sheets st file) !! key).
Proof.
  intros Hkey. rewrite process_one_lookup.
  by destruct (file_rows file target_sheets key).
Qed.

Lemma process_loop_is_Some (target_sheets : list string)
    (files : list UploadedFile) (st : State) (key : string) :
  is_Some (merged_data st !! key) ->
  is_Some (merged_data (foldl (process_one target_sheets) st files) !! key).
Proof.
  revert st. induction files as [|f files IH]; intros st Hkey; [done |].
  simpl. by apply IH, process_one_is_Some.
Qed.

(** X11: A run only adds: every key stays, the rows stored under a key stay
    where they are (new rows come after them), every processed name
    stays, and so does every log entry. *)
Theorem run_is_append_only (uploaded_files : list UploadedFile)
    (target_sheets : list string) (preview_limit : option nat) (button : bool)
    (st : State) :
  let st' := processing_section uploaded_files target_sheets preview_limit button st in
  (forall key, is_Some (merged_data st !! key) -> is_Some (merged_data st' !! key))
  /\ (forall key,
        dd_get (merged_data st) key `prefix_of` dd_get (merged_data st') key)
  /\ processed_files st ⊆ processed_files st'
  /\ processing_log st `prefix_of` processing_log st'.
Proof.
  cbv zeta. rewrite processing_section_batch.
  split; [| split; [| split]].
  - intros key. apply process_loop_is_Some.
  - intros key. rewrite process_loop_dd_get. by eexists.
  - rewrite process_loop_processed. set_solver.
  - destruct (process_loop_log target_sheets
                (batch_of uploaded_files target_sheets preview_limit button st) st)
      as [lines ->].
    by eexists.
Qed.

Lemma total_rows_insert_fresh (m : gmap string (list ExtractedRow)) (k : string)
    (rows : list ExtractedRow) :
  m !! k = None -> total_rows (<[k := rows]> m) = total_rows m + length rows.
Proof.
  intros Hk. unfold total_rows. rewrite map_fold_insert_L; [done | | done].
  intros. lia.
Qed.

Lemma total_rows_extend (m : gmap string (list ExtractedRow)) (k : string)
    (rows : list ExtractedRow) :
  total_rows (<[k := dd_get m k ++ rows]> m) = total_rows m + length rows.
Proof.
  unfold dd_get. destruct (m !! k) as [old|] eqn:Hk; simpl.
  - rewrite <- (insert_delete_eq m).
    rewrite <- (insert_delete_id m k old Hk) at 2.
    rewrite !total_rows_insert_fresh by apply lookup_delete_eq.
    rewrite length_app. lia.
  - by apply total_rows_insert_fresh.
Qed.

Lemma total_rows_merge (current file_results : gmap string (list ExtractedRow)) :
  total_rows (merge_results current file_results)
  = total_rows current + total_rows file_results.
Proof.
  unfold merge_results.
  apply (map_fold_weak_ind
           (fun merged (res : gmap string (list ExtractedRow)) =>
              total_rows merged = total_rows current + total_rows res)).
  - unfold total_rows at 3. rewrite map_fold_empty. lia.
  - intros sheet_name data_list res merged Hfresh IH.
    unfold dd_extend. rewrite total_rows_extend, IH.
    rewrite total_rows_insert_fresh by done. lia.
Qed.

Lemma total_rows_target_loop (file_name : string) (xls : ExcelFile)
    (target_sheets : list string) (l : Loop) :
  total_rows
    (results (foldl (target_step file_name xls (build_sheet_mapping (sheet_names xls)))
                l target_sheets))
  = total_rows (results l)
    + sum_list_with (fun t => length (target_rows file_name xls t)) target_sheets.
Proof.
  revert l. induction target_sheets as [|t ts IH]; intros l; simpl; [lia |].
  rewrite IH, target_step_results.
  destruct (target_rows file_name xls t) as [|r rows] eqn:Hrows; simpl; [lia |].
  rewrite total_rows_extend. simpl. lia.
Qed.

Lemma total_rows_of_file (tmp : gset nat) (file : UploadedFile)
    (target_sheets : list string) :
  total_rows (process_excel_file tmp file target_sheets).1.1
  = rows_extracted file target_sheets.
Proof.
  unfold process_excel_file, rows_extracted.
  destruct (opened file) as [xls|e]; simpl.
  - rewrite total_rows_target_loop. simpl. unfold total_rows.
    by rewrite map_fold_empty.
  - unfold total_rows. by rewrite map_fold_empty.
Qed.

Lemma total_rows_process_loop (target_sheets : list string)
    (files : list UploadedFile) (st : State) :
  total_rows (merged_data (foldl (process_one target_sheets) st files))
  = total_rows (merged_data st)
    + sum_list_with (fun f => rows_extracted f target_sheets) files.
Proof.
  revert st. induction files as [|f files IH]; intros st; simpl; [lia |].
  rewrite IH, process_one_eq. simpl.
  rewrite total_rows_merge, total_rows_of_file. lia.
Qed.

(** X12: The metrics of the sidebar: a run raises "Total Rows" by the number
    of rows extracted from the files it processes, each target of the
    list counted with the rows of the worksheet it matches, and lowers
    neither "Sheets Merged" nor "Files Processed". *)
Theorem metrics_after_a_run (uploaded_files : list UploadedFile)
    (target_sheets : list string) (preview_limit : option nat) (button : bool)
    (st : State) :
  let st' := processing_section uploaded_files target_sheets preview_limit button st in
  total_rows (merged_data st')
  = total_rows (merged_data st)
    + sum_list_with (fun f => rows_extracted f target_sheets)
        (batch_of uploaded_files target_sheets preview_limit button st)
  /\ sheets_merged (sidebar_metrics st) <= sheets_merged (sidebar_metrics st')
  /\ files_processed (sidebar_metrics st) <= files_processed (sidebar_metrics st').
Proof.
  cbv zeta. rewrite processing_section_batch. split; [| split].
  - apply total_rows_process_loop.
  - simpl. rewrite <- !size_dom. apply subseteq_size.
    intros key. rewrite !elem_of_dom. apply process_loop_is_Some.
  - simpl. apply subseteq_size. rewrite process_loop_processed. set_solver.
Qed.

End SessionInvariants.

(** ** What the page shows *)

Section PageFacts.
Import PyStr Pandas App Page.

Lemma run_session_history (tmp : gset nat) (actions : list Action) :
  exists history : list (UploadedFile * list string),
    processed_files (run_session tmp actions)
      = list_to_set ((fun p => name p.1) <$> history)
    /\ forall key,
         merged_data (run_session tmp actions) !! key
         = entry_of (history_rows history key).
Proof.
  unfold run_session. induction actions as [|a actions IH] using rev_ind.
  - exists []. split; [done |]. intros key. simpl. by rewrite lookup_empty.
  - destruct IH as (history & Hset & Hinv). rewrite foldl_app. simpl.
    destruct a as [uploaded_files target_sheets preview_limit button| |]; simpl.
    + rewrite processing_section_batch.
      set (st := foldl run_action (initial_state tmp) actions) in *.
      exists (history ++ ((fun f => (f, target_sheets))
                <$> batch_of uploaded_files target_sheets preview_limit button st)).
      split.
      * rewrite process_loop_processed, Hset.
        rewrite fmap_app, list_to_set_app_L, <- list_fmap_compose.
        apply (comm_L (∪)).
      * intros key. by apply process_loop_history.
    + exists []. split; [done |]. intros key. simpl. by rewrite lookup_empty.
    + by exists history.
Qed.

Lemma file_rows_provenance (file : UploadedFile) (target_sheets : list string)
    (key : string) (r : ExtractedRow) :
  r ∈ file_rows file target_sheets key ->
  source_file r = name file
  /\ normalize_sheet_name (source_sheet r) = normalize_sheet_name key
  /\ (0 <= row_index r)%Z.
Proof.
  unfold file_rows. destruct (opened file) as [xls|e]; [| by intros H%elem_of_nil].
  rewrite bind_filter_eq. intros Hr%elem_of_concat_replicate.
  unfold target_rows in Hr.
  destruct (build_sheet_mapping _ !! _) as [original_sheet|] eqn:Hmap;
    [| by apply elem_of_nil in Hr].
  destruct (read_excel xls original_sheet) as [df|e]; [| by apply elem_of_nil in Hr].
  destruct (df_empty df); [by apply elem_of_nil in Hr |].
  apply elem_of_lookup_imap in Hr as (i & row & -> & Hrow). simpl.
  split; [done | split; [| lia]].
  by apply build_sheet_mapping_Some in Hmap as [_ ?].
Qed.

(** X13: Every row stored in a session names a file that is marked as
    processed, comes from a worksheet whose normalized name is the
    normalized form of the key it is stored under, and has a row index
    that is not negative. *)
Theorem stored_rows_provenance (tmp : gset nat) (actions : list Action)
    (key : string) (r : ExtractedRow) :
  r ∈ dd_get (merged_data (run_session tmp actions)) key ->
  source_file r ∈ processed_files (run_session tmp actions)
  /\ normalize_sheet_name (source_sheet r) = normalize_sheet_name key
  /\ (0 <= row_index r)%Z.
Proof.
  destruct (run_session_history tmp actions) as (history & Hset & Hinv).
  unfold dd_get. rewrite Hinv, Hset.
  assert (default [] (entry_of (history_rows history key)) = history_rows history key)
    as -> by (by destruct (history_rows history key)).
  unfold history_rows. intros ([f ts] & Hr & Hin)%list_elem_of_bind.
  destruct (file_rows_provenance _ _ _ _ Hr) as (Hfile & Hsheet & Hindex).
  split; [| done]. rewrite Hfile. apply elem_of_list_to_set.
  by apply (list_elem_of_fmap_2 (fun p : UploadedFile * list string => name p.1)
              _ (f, ts)).
Qed.

Lemma stored_rows_provenance_witness :
  let st := run_session ∅ [Run [Samples.file_one] ["Final MR_AC"] None true] in
  "one.xlsx" ∈ processed_files st
  /\ normalize_sheet_name "final mr_ac" = normalize_sheet_name "Final MR_AC".
Proof.
  intros st.
  destruct (stored_rows_provenance ∅
              [Run [Samples.file_one] ["Final MR_AC"] None true] "Final MR_AC"
              {| data := [("a", CInt 1); ("b", CStr "x")]; source_file := "one.xlsx";
                 source_sheet := "final mr_ac"; row_index := 0 |})
    as (Hfile & Hsheet & _).
  - assert (dd_get (merged_data
                      (run_session ∅
                         [Run [Samples.file_one] ["Final MR_AC"] None true]))
              "Final MR_AC"
            = [ {| data := [("a", CInt 1); ("b", CStr "x")];
                   source_file := "one.xlsx"; source_sheet := "final mr_ac";
                   row_index := 0 |};
                {| data := [("a", CInt 2); ("b", CNaN)];
                   source_file := "one.xlsx"; source_sheet := "final mr_ac";
                   row_index := 1 |} ]) as -> by reflexivity.
    left.
  - split; [exact Hfile | exact Hsheet].
Defined.

Lemma session_log_info (tmp : gset nat) (actions : list Action) :
  Forall (fun log_entry => type log_entry = info)
    (processing_log (run_session tmp actions)).
Proof.
  unfold run_session. induction actions as [|a actions IH] using rev_ind; [done |].
  rewrite foldl_app. simpl.
  destruct a as [uploaded_files target_sheets preview_limit button| |]; simpl; [| done..].
  rewrite processing_section_batch.
  destruct (process_loop_log target_sheets
              (batch_of uploaded_files target_sheets preview_limit button
                 (foldl run_action (initial_state tmp) actions))
              (foldl run_action (initial_state tmp) actions)) as [lines ->].
  apply Forall_app. split; [done |].
  apply Forall_forall. intros e (line & -> & _)%list_elem_of_fmap. done.
Qed.

(** X14: The log display shows the last 50 entries of the log, all of them
    when there are fewer, in the order of the log; in any session each of
    them is shown through [st.info]: the [st.error] and [st.warning]
    branches are never taken. *)
Theorem log_display (tmp : gset nat) (actions : list Action) :
  let log := processing_log (run_session tmp actions) in
  length (render_log log) = min 50 (length log)
  /\ render_log log
     = (fun log_entry => st_info (message log_entry))
       <$> drop (length log - 50) log.
Proof.
  cbv zeta. pose proof (session_log_info tmp actions) as Hinfo.
  set (log := processing_log (run_session tmp actions)) in *.
  assert (render_log log = render_entry <$> drop (length log - 50) log) as Hrender.
  { unfold render_log, last_entries. by destruct log. }
  split.
  - rewrite Hrender, length_fmap, length_drop. lia.
  - rewrite Hrender. apply Forall_fmap_ext_1.
    apply Forall_forall. intros e He.
    assert (type e = info) as Htype.
    { eapply Forall_forall in Hinfo; [exact Hinfo |].
      by apply (subseteq_drop (length log - 50) log). }
    unfold render_entry. by rewrite Htype.
Qed.

End PageFacts.

(** ** File counts and preview *)

Section PageTables.
Import PyStr Pandas App Page.

Lemma counts_get_set (k k' : string) (v : nat) (d : Counts) :
  counts_get k' (counts_set k v d)
  = if String.eqb k' k then Some v else counts_get k' d.
Proof.
  induction d as [|[k0 v0] d IH]; simpl; [done |].
  destruct (String.eqb_spec k k0) as [-> | Hk]; simpl.
  - by destruct (String.eqb k' k0).
  - destruct (String.eqb_spec k' k0) as [-> | Hk'].
    + destruct (String.eqb_spec k0 k); [by subst | done].
    + apply IH.
Qed.

Lemma counts_get_None (k : string) (d : Counts) :
  counts_get k d = None <-> k ∉ d.*1.
Proof.
  induction d as [|[k0 v0] d IH]; simpl.
  - split; [intros _; apply not_elem_of_nil | done].
  - rewrite not_elem_of_cons.
    destruct (String.eqb_spec k k0) as [-> | Hk]; [split; [done | tauto] |].
    rewrite IH. tauto.
Qed.

Lemma counts_set_keys (k : string) (v : nat) (d : Counts) :
  (counts_set k v d).*1 = if bool_decide (k ∈ d.*1) then d.*1 else d.*1 ++ [k].
Proof.
  induction d as [|[k0 v0] d IH]; [done |].
  simpl counts_set. destruct (String.eqb_spec k k0) as [-> | Hk].
  - rewrite !fmap_cons. simpl. rewrite bool_decide_eq_true_2; [done | left].
  - rewrite !fmap_cons, IH. simpl. case_bool_decide as Hin.
    + rewrite bool_decide_eq_true_2; [done | by right].
    + rewrite bool_decide_eq_false_2; [done |].
      rewrite not_elem_of_cons. tauto.
Qed.

Lemma counts_set_sum (k : string) (v : nat) (d : Counts) :
  sum_list (counts_set k v d).*2 + default 0 (counts_get k d) = sum_list d.*2 + v.
Proof.
  induction d as [|[k0 v0] d IH]; [simpl; lia |].
  simpl counts_set. simpl counts_get.
  destruct (String.eqb_spec k k0) as [-> | Hk]; rewrite !fmap_cons; simpl; lia.
Qed.

Lemma file_counts_snoc (data_list : list ExtractedRow) (item : ExtractedRow) :
  file_counts (data_list ++ [item])
  = counts_set (source_file item)
      (default 0 (counts_get (source_file item) (file_counts data_list)) + 1)
      (file_counts data_list).
Proof. unfold file_counts. by rewrite foldl_app. Qed.

Lemma file_counts_keys (data_list : list ExtractedRow) :
  (forall n,
     n ∈ (file_counts data_list).*1
     <-> exists r, r ∈ data_list /\ source_file r = n)
  /\ NoDup (file_counts data_list).*1.
Proof.
  induction data_list as [|item data_list (Hkeys & Hnodup)] using rev_ind.
  - split; [| constructor].
    intros n. split; [by intros H%elem_of_nil |].
    intros (r & Hr & _). by apply elem_of_nil in Hr.
  - rewrite file_counts_snoc.
    set (fc := file_counts data_list) in *. set (k := source_file item).
    rewrite counts_set_keys. split.
    + intros n.
      assert (n ∈ fc.*1 ++ [k] <-> exists r, r ∈ data_list ++ [item] /\ source_file r = n)
        as Hsnoc.
      { rewrite elem_of_app, list_elem_of_singleton, Hkeys. split.
        - intros [(r & Hr & Hn) | ->].
          + exists r. split; [apply elem_of_app; by left | done].
          + exists item. split; [apply elem_of_app; right; left | done].
        - intros (r & [Hr | ->%list_elem_of_singleton]%elem_of_app & Hn).
          + left. by exists r.
          + by right. }
      case_bool_decide as Hin; [| done].
      rewrite <- Hsnoc, elem_of_app, list_elem_of_singleton.
      split; [tauto |]. intros [? | ->]; done.
    + case_bool_decide as Hin; [done |].
      apply NoDup_app. split; [done | split; [| apply NoDup_singleton]].
      intros x Hx ->%list_elem_of_singleton. done.
Qed.

(** X15: The counts behind "rows from N files" and "Files Contributing": each
    file name that occurs as the source of a row is a key, once; its count
    is the number of rows from that name; the counts add up to the number
    of rows. *)
Theorem file_counts_correct (data_list : list ExtractedRow) :
  (forall n,
     default 0 (counts_get n (file_counts data_list))
     = length (filter (fun r => source_file r = n) data_list))
  /\ (forall n,
        n ∈ (file_counts data_list).*1
        <-> exists r, r ∈ data_list /\ source_file r = n)
  /\ NoDup (file_counts data_list).*1
  /\ sum_list (file_counts data_list).*2 = length data_list.
Proof.
  destruct (file_counts_keys data_list) as [Hkeys Hnodup].
  split; [| split; [done | split; [done |]]].
  - induction data_list as [|item data_list Hcount] using rev_ind; [done |].
    intros n. rewrite file_counts_snoc.
    rewrite counts_get_set, filter_app, length_app, filter_cons, filter_nil.
    destruct (file_counts_keys data_list) as [Hkeys' Hnodup'].
    specialize (Hcount Hkeys' Hnodup').
    destruct (String.eqb_spec n (source_file item)) as [-> | Hn]; simpl.
    + rewrite decide_True by done. rewrite Hcount. simpl. lia.
    + rewrite decide_False by done. rewrite Hcount. simpl. lia.
  - clear Hkeys Hnodup.
    induction data_list as [|item data_list Hsum] using rev_ind; [done |].
    rewrite file_counts_snoc.
    pose proof (counts_set_sum (source_file item)
                  (default 0 (counts_get (source_file item) (file_counts data_list)) + 1)
                  (file_counts data_list)).
    rewrite length_app. simpl. lia.
Qed.

Lemma preview_export_keys (item : ExtractedRow) (c : string) :
  c ∈ dict_keys (preview_row item) -> c ∈ dict_keys (export_row item).
Proof.
  unfold export_row. fold (preview_row item). rewrite dict_keys_set. tauto.
Qed.

Lemma preview_row_keys (item : ExtractedRow) (c : string) :
  c ∈ dict_keys (preview_row item)
  <-> c ∈ dict_keys (data item) \/ c ∈ ["_Source_File"; "_Source_Sheet"].
Proof.
  unfold preview_row. rewrite !dict_keys_set, !elem_of_cons, elem_of_nil. tauto.
Qed.

(** X16: The data preview of a key that has rows: the preview table holds
    the first five rows (all of them when there are fewer), in order; the
    caption about rows left out appears exactly when there are more than
    five, with the numbers 5 and the length of the list; the columns,
    without repetition, are the data keys of the previewed rows together
    with [_Source_File] and [_Source_Sheet], the preview adding no
    [_Original_Row], and each of them is a column of the table the
    exporter builds; in every previewed row the two provenance cells carry
    the row's [source_file] and [source_sheet], and every other cell the
    row's value for the column, or a missing value, an integer being
    converted to a float where the column is stored as float64. *)
Theorem preview_table_correct (data_list : list ExtractedRow) :
  data_list <> [] ->
  exists pv,
    preview_of data_list = Some pv
    /\ length (values (preview_table pv)) = min 5 (length data_list)
    /\ (is_Some (preview_caption pv) <-> 5 < length data_list)
    /\ (forall shown total,
          preview_caption pv = Some (shown, total) ->
          shown = 5 /\ total = length data_list)
    /\ NoDup (columns (preview_table pv))
    /\ (forall c,
          c ∈ columns (preview_table pv)
          <-> (exists item, item ∈ take 5 data_list /\ c ∈ dict_keys (data item))
              \/ c ∈ ["_Source_File"; "_Source_Sheet"])
    /\ (forall c,
          c ∈ columns (preview_table pv) ->
          c ∈ columns (DataFrame_of_records (map export_row data_list)))
    /\ forall i item,
         data_list !! i = Some item -> i < 5 ->
         df_cell (preview_table pv) i "_Source_File" = Some (CStr (source_file item))
         /\ df_cell (preview_table pv) i "_Source_Sheet"
            = Some (CStr (source_sheet item))
         /\ forall c,
              c ∈ columns (preview_table pv) ->
              c ∉ ["_Source_File"; "_Source_Sheet"] ->
              exists v,
                df_cell (preview_table pv) i c = Some v
                /\ (v = default CNaN (dict_get c (data item))
                    \/ exists z, dict_get c (data item) = Some (CInt z)
                                 /\ v = float_of_int z).
Proof.
  intros Hne. destruct data_list as [|item0 items]; [done |]. clear Hne.
  set (data_list := item0 :: items).
  exists {| preview_table := DataFrame_of_records (map preview_row (take 5 data_list));
            preview_caption := if Nat.ltb 5 (length data_list)
                               then Some (5, length data_list) else None |}.
  assert (forall c,
            c ∈ union_columns (map preview_row (take 5 data_list))
            <-> (exists item, item ∈ take 5 data_list /\ c ∈ dict_keys (data item))
                \/ c ∈ ["_Source_File"; "_Source_Sheet"]) as Hcols.
  { intros c. rewrite union_columns_elem. split.
    - intros (d & (item & -> & Hitem)%list_elem_of_fmap & Hc).
      apply preview_row_keys in Hc as [Hc | Hc]; [left; by exists item | by right].
    - intros [(item & Hitem & Hc) | Hc].
      + exists (preview_row item). split; [by apply list_elem_of_fmap_2 |].
        apply preview_row_keys. by left.
      + exists (preview_row item0). split; [left |].
        apply preview_row_keys. by right. }
  split; [done | split; [| split; [| split; [| split; [| split; [| split]]]]]].
  - unfold DataFrame_of_records. cbn [preview_table values].
    by rewrite !length_map, length_take.
  - cbn [preview_caption].
    destruct (Nat.ltb_spec 5 (length data_list)) as [Hlt | Hge].
    + split; [done | by eexists].
    + split; [intros [? [=]] | lia].
  - cbn [preview_caption]. intros shown total.
    destruct (Nat.ltb 5 (length data_list)); [| done]. by intros [= <- <-].
  - unfold DataFrame_of_records. cbn [preview_table columns].
    apply union_columns_NoDup.
  - exact Hcols.
  - unfold DataFrame_of_records. cbn [preview_table columns].
    intros c. rewrite !union_columns_elem.
    intros (d & (item & -> & Hitem)%list_elem_of_fmap & Hc).
    exists (export_row item). split; [| by apply preview_export_keys].
    apply list_elem_of_fmap_2. by apply (subseteq_take 5 data_list).
  - intros i item Hitem Hi. cbn [preview_table].
    assert (map preview_row (take 5 data_list) !! i = Some (preview_row item)) as Hrow.
    { rewrite list_lookup_fmap, lookup_take_lt by done. by rewrite Hitem. }
    assert (forall c, c ∈ ["_Source_File"; "_Source_Sheet"] ->
                      c ∈ union_columns (map preview_row (take 5 data_list))) as Hprov
      by (intros c Hc; apply Hcols; by right).
    repeat split.
    + rewrite (DataFrame_of_records_cell _ _ _ _ Hrow) by (apply Hprov; set_solver).
      unfold preview_row at 2. rewrite !dict_get_set. simpl.
      by rewrite astype_not_int.
    + rewrite (DataFrame_of_records_cell _ _ _ _ Hrow) by (apply Hprov; set_solver).
      unfold preview_row at 2. rewrite !dict_get_set. simpl.
      by rewrite astype_not_int.
    + intros c Hc Hnot. unfold DataFrame_of_records in Hc. cbn [columns] in Hc.
      rewrite (DataFrame_of_records_cell _ _ _ _ Hrow) by done.
      assert (dict_get c (preview_row item) = dict_get c (data item)) as ->.
      { unfold preview_row. rewrite !dict_get_set.
        rewrite !not_elem_of_cons in Hnot. destruct Hnot as (H1 & H2 & _).
        destruct (String.eqb_spec c "_Source_Sheet"); [done |].
        destruct (String.eqb_spec c "_Source_File"); done. }
      eexists. split; [reflexivity |].
      destruct (astype_cases
                  (infer_dtype (column_of c (map preview_row (take 5 data_list))))
                  (default CNaN (dict_get c (data item)))) as [-> | (z & Hz & ->)];
        [by left |].
      right. exists z. split; [| done].
      destruct (dict_get c (data item)) as [x|]; simpl in Hz; [by subst | done].
Qed.

Lemma preview_table_correct_witness :
  exists pv,
    preview_of (file_rows Samples.file_one ["Final MR_AC"] "Final MR_AC") = Some pv
    /\ length (values (preview_table pv)) = 2
    /\ preview_caption pv = None.
Proof.
  assert (file_rows Samples.file_one ["Final MR_AC"] "Final MR_AC" <> []) as Hne
    by discriminate.
  destruct (preview_table_correct _ Hne) as (pv & Hpv & Hlen & Hcap & _).
  exists pv. split; [exact Hpv |]. split; [exact Hlen |].
  destruct (preview_caption pv) as [cap|]; [| reflexivity].
  exfalso. assert (5 < 2) as Hlt by (apply Hcap; by eexists). lia.
Defined.

(** The preview and the download of one key can show one cell
    differently: with five rows that hold the integer [2**53 + 1] under
    [a] and a sixth row without [a], the column [a] of the preview is a
    column of integers, and the column [a] of the exported table, which
    has a missing value, is stored as float64. *)
Lemma preview_exact_where_export_converts :
  let row := {| data := [("a", CInt 9007199254740993)]; source_file := "one.xlsx";
                source_sheet := "S"; row_index := 0 |} in
  let last := {| data := []; source_file := "one.xlsx"; source_sheet := "S";
                 row_index := 5 |} in
  let data_list := [row; row; row; row; row; last] in
  (preview_table <$> preview_of data_list) ≫= (fun table => df_cell table 0 "a")
  = Some (CInt 9007199254740993)
  /\ df_cell (DataFrame_of_records (map export_row data_list)) 0 "a"
     = Some (CFloat 1 53)
  /\ df_cell (DataFrame_of_records (map export_row data_list)) 5 "a" = Some CNaN.
Proof. vm_compute. repeat split; reflexivity. Qed.

End PageTables.

(** ** The download section in a session *)

Section Downloads.
Import PyStr Pandas App Page.




End Downloads.

(** ** From a worksheet to the exported table *)

Section ExtractThenExport.
Import PyStr Pandas App Page.

Lemma dict_set_new (k : string) (v : Cell) (d : Record_) :
  k ∉ dict_keys d -> dict_set k v d = d ++ [(k, v)].
Proof.
  unfold dict_keys. induction d as [|[k0 v0] d IH]; [done |].
  rewrite fmap_cons, not_elem_of_cons. simpl. intros [Hne Hnot].
  destruct (String.eqb_spec k k0); [done |]. by rewrite IH.
Qed.

Lemma foldl_dict_set_new (l acc : Record_) :
  NoDup (dict_keys (acc ++ l)) ->
  foldl (fun d kv => dict_set kv.1 kv.2 d) acc l = acc ++ l.
Proof.
  unfold dict_keys. revert acc. induction l as [|[k v] l IH]; intros acc Hnodup.
  - simpl. by rewrite app_nil_r.
  - simpl. rewrite dict_set_new.
    + rewrite IH; rewrite <- app_assoc; done.
    + rewrite fmap_app, fmap_cons in Hnodup.
      apply NoDup_app in Hnodup as (_ & Hdisj & _).
      intros Hin. apply (Hdisj _ Hin). left.
Qed.

Lemma to_dict_zip (cols : list string) (row : list Cell) :
  NoDup cols -> length row = length cols -> to_dict cols row = zip cols row.
Proof.
  intros Hnodup Hlen. unfold to_dict. rewrite foldl_dict_set_new; [done |].
  unfold dict_keys. simpl. rewrite fst_zip by lia. done.
Qed.

Lemma add_keys_present (keys cols : list string) :
  (forall k, k ∈ keys -> k ∈ cols) ->
  foldl (fun cs k => if bool_decide (k ∈ cs) then cs else cs ++ [k]) cols keys = cols.
Proof.
  induction keys as [|k keys IH]; intros Hall; [done |].
  simpl. rewrite bool_decide_eq_true_2 by (apply Hall; left).
  apply IH. intros x Hx. apply Hall. by right.
Qed.

Lemma add_keys_new (keys cols : list string) :
  NoDup (cols ++ keys) ->
  foldl (fun cs k => if bool_decide (k ∈ cs) then cs else cs ++ [k]) cols keys
  = cols ++ keys.
Proof.
  revert cols. induction keys as [|k keys IH]; intros cols Hnodup.
  - simpl. by rewrite app_nil_r.
  - simpl. rewrite bool_decide_eq_false_2.
    + rewrite IH; rewrite <- app_assoc; done.
    + apply NoDup_app in Hnodup as (_ & Hdisj & _).
      intros Hin. apply (Hdisj _ Hin). left.
Qed.

Lemma union_columns_same_keys (keys : list string) (records : list Record_) :
  NoDup keys -> records <> [] ->
  (forall d, d ∈ records -> dict_keys d = keys) ->
  union_columns records = keys.
Proof.
  intros Hnodup Hne Hall. unfold union_columns.
  destruct records as [|d records]; [done |]. simpl.
  rewrite (Hall d) by left. rewrite add_keys_new by done. simpl.
  assert (forall l : list Record_,
            (forall x, x ∈ l -> dict_keys x = keys) ->
            foldl (fun cols d =>
                     foldl (fun cs k => if bool_decide (k ∈ cs) then cs else cs ++ [k])
                           cols (dict_keys d)) keys l = keys) as Hrest.
  { induction l as [|x l IH]; intros Hl; [done |].
    simpl. rewrite (Hl x) by left. rewrite add_keys_present by done.
    apply IH. intros y Hy. apply Hl. by right. }
  apply Hrest. intros x Hx. apply Hall. by right.
Qed.

Lemma dict_get_values (d : Record_) :
  NoDup (dict_keys d) ->
  map (fun c => default CNaN (dict_get c d)) (dict_keys d) = d.*2.
Proof.
  unfold dict_keys. induction d as [|[k v] d IH]; [done |].
  rewrite !fmap_cons. intros [Hk Hd]%NoDup_cons. simpl.
  rewrite String.eqb_refl. simpl. f_equal.
  rewrite <- (IH Hd). apply map_ext_in. intros c Hc%list_elem_of_In.
  destruct (String.eqb_spec c k) as [-> | _]; done.
Qed.

Lemma astype_stable (cells : list Cell) (x : Cell) :
  mixes_int_and_float cells = false -> x ∈ cells ->
  astype (infer_dtype cells) x = x.
Proof.
  unfold mixes_int_and_float. intros Hmix Hx.
  destruct (is_int x) eqn:Hint; [| by apply astype_not_int].
  apply astype_no_float.
  assert (existsb is_int cells = true) as Hints.
  { apply existsb_exists. exists x. split; [by apply list_elem_of_In | done]. }
  rewrite Hints in Hmix. done.
Qed.

Lemma DataFrame_of_records_stable (records : list Record_) :
  (forall c, c ∈ union_columns records ->
             mixes_int_and_float (column_of c records) = false) ->
  DataFrame_of_records records
  = {| columns := union_columns records;
       values := map (fun d => map (fun c => default CNaN (dict_get c d))
                                   (union_columns records))
                     records |}.
Proof.
  intros Hstable. unfold DataFrame_of_records. f_equal.
  apply map_ext_in. intros d Hd%list_elem_of_In.
  apply map_ext_in. intros c Hc%list_elem_of_In.
  apply astype_stable; [by apply Hstable |].
  unfold column_of.
  by apply (list_elem_of_fmap_2 (fun d => default CNaN (dict_get c d))).
Qed.

Lemma rows_of_frame_data (file_name original_sheet : string) (df : DataFrame) :
  map data (rows_of_frame file_name original_sheet df)
  = map (to_dict (columns df)) (values df).
Proof.
  unfold rows_of_frame. apply list_eq. intros i.
  rewrite !list_lookup_fmap, list_lookup_imap.
  by destruct (values df !! i).
Qed.

(** X18: Round trip from a worksheet to the download.  Take a non-empty
    frame with distinct column labels, none of them the name of a
    provenance column, with full rows, in which no column holds an integer
    beside a float or a missing value (a column of a frame has one dtype),
    and whose rows have one dtype as they stand (a string somewhere, or no
    integer, or int64 integers only), so that neither [iterrows] nor
    [pd.DataFrame] has a cell to convert.  When [to_excel] accepts the
    table, exporting the rows extracted from the frame returns the
    document whose worksheet "Data" has the frame's columns followed by
    the three provenance columns, and in each row the frame's cells
    followed by the file name, the worksheet name and the row's
    position. *)
Theorem extract_then_export (sheet_name file_name original_sheet : string)
    (df : DataFrame) :
  df_empty df = false ->
  NoDup (columns df) ->
  (forall c, c ∈ ["_Source_File"; "_Source_Sheet"; "_Original_Row"] ->
             c ∉ columns df) ->
  (forall row, row ∈ values df -> length row = length (columns df)) ->
  (forall c, c ∈ columns df ->
             mixes_int_and_float
               (column_of c (map (to_dict (columns df)) (values df))) = false) ->
  rows_of_one_dtype df = true ->
  let table :=
    {| columns := columns df ++ ["_Source_File"; "_Source_Sheet"; "_Original_Row"];
       values :=
         imap (fun i row =>
                 row ++ [CStr file_name; CStr original_sheet; CInt (Z.of_nat i)])
              (values df) |} in
  to_excel table = None ->
  create_individual_excel_file sheet_name
    (rows_of_frame file_name original_sheet df)
  = Output (Some {| doc_sheet := "Data"; doc_table := table |}).
Proof.
  intros Hne Hnodup Hprov Hfull Hkinds _ table Hwrites.
  pose proof (rows_of_frame_nonempty file_name original_sheet df Hne) as Hrows.
  rewrite create_individual_excel_file_nonempty by done.
  set (keys := columns df ++ ["_Source_File"; "_Source_Sheet"; "_Original_Row"]).
  assert (NoDup keys) as Hkeys.
  { apply NoDup_app. split; [done | split].
    - intros c Hc Hin. by apply (Hprov c).
    - repeat (apply NoDup_cons; split); [| | | constructor];
        rewrite ?elem_of_cons, ?elem_of_nil; intros H;
        repeat destruct H as [H | H]; done. }
  assert (forall i row,
            values df !! i = Some row ->
            export_row {| data := to_dict (columns df) row; source_file := file_name;
                          source_sheet := original_sheet;
                          row_index := Z.of_nat i |}
            = zip (columns df) row
              ++ [("_Source_File", CStr file_name);
                  ("_Source_Sheet", CStr original_sheet);
                  ("_Original_Row", CInt (Z.of_nat i))]) as Hexport.
  { intros i row Hrow.
    assert (length row = length (columns df)) as Hlen
      by (apply Hfull; by eapply list_elem_of_lookup_2).
    unfold export_row. simpl. rewrite to_dict_zip by done.
    assert (dict_keys (zip (columns df) row) = columns df) as Hzip
      by (unfold dict_keys; apply fst_zip; lia).
    rewrite (dict_set_new "_Source_File").
    2: { rewrite Hzip. apply Hprov. set_solver. }
    rewrite (dict_set_new "_Source_Sheet").
    2: { unfold dict_keys. rewrite fmap_app. fold (dict_keys (zip (columns df) row)).
         rewrite Hzip. simpl. rewrite elem_of_app, list_elem_of_singleton.
         intros [Hin | Heq]; [| done]. revert Hin. apply Hprov. set_solver. }
    rewrite (dict_set_new "_Original_Row").
    2: { unfold dict_keys. rewrite !fmap_app.
         fold (dict_keys (zip (columns df) row)). rewrite Hzip. simpl.
         rewrite !elem_of_app, !list_elem_of_singleton.
         intros [[Hin | Heq] | Heq]; [| done | done].
         revert Hin. apply Hprov. set_solver. }
    by rewrite <- !app_assoc. }
  assert (forall i row,
            values df !! i = Some row ->
            dict_keys (zip (columns df) row
                       ++ [("_Source_File", CStr file_name);
                           ("_Source_Sheet", CStr original_sheet);
                           ("_Original_Row", CInt (Z.of_nat i))]) = keys) as Hdkeys.
  { intros i row Hrow. unfold dict_keys. rewrite fmap_app.
    fold (dict_keys (zip (columns df) row)). unfold dict_keys.
    rewrite fst_zip; [done |].
    rewrite (Hfull row); [done | by eapply list_elem_of_lookup_2]. }
  assert (union_columns (map export_row (rows_of_frame file_name original_sheet df))
          = keys) as Hcols.
  { apply union_columns_same_keys; [done | |].
    - intros Hnil. apply Hrows. by destruct (rows_of_frame _ _ _).
    - intros d (r & -> & Hr)%list_elem_of_fmap.
      apply elem_of_lookup_imap in Hr as (i & row & -> & Hrow).
      rewrite (Hexport i row Hrow). by apply (Hdkeys i row). }
  assert (DataFrame_of_records
            (map export_row (rows_of_frame file_name original_sheet df)) = table)
    as ->; [| by rewrite Hwrites].
  rewrite DataFrame_of_records_stable.
  - rewrite Hcols. unfold table. f_equal.
    unfold rows_of_frame. rewrite <- list_fmap_compose, fmap_imap.
    apply imap_ext. intros i row Hrow. simpl.
    rewrite (Hexport i row Hrow). rewrite <- (Hdkeys i row Hrow) at 1.
    rewrite dict_get_values by (rewrite (Hdkeys i row Hrow); done).
    rewrite fmap_app, snd_zip; [done |].
    rewrite (Hfull row); [done | by eapply list_elem_of_lookup_2].
  - intros c. rewrite Hcols. unfold keys. rewrite elem_of_app.
    unfold mixes_int_and_float. intros [Hc | Hc].
    + assert (column_of c (map export_row (rows_of_frame file_name original_sheet df))
              = column_of c (map (to_dict (columns df)) (values df))) as ->;
        [| by apply Hkinds].
      rewrite <- (rows_of_frame_data file_name original_sheet). rewrite !column_of_map.
      apply map_ext. intros r. f_equal. unfold export_row. rewrite !dict_get_set.
      destruct (String.eqb_spec c "_Original_Row") as [-> | _];
        [exfalso; revert Hc; apply Hprov; set_solver |].
      destruct (String.eqb_spec c "_Source_Sheet") as [-> | _];
        [exfalso; revert Hc; apply Hprov; set_solver |].
      destruct (String.eqb_spec c "_Source_File") as [-> | _];
        [exfalso; revert Hc; apply Hprov; set_solver | done].
    + assert (existsb is_float
                (column_of c (map export_row
                                (rows_of_frame file_name original_sheet df))) = false)
        as ->; [| apply andb_false_r].
      rewrite column_of_map. apply existsb_map_false. intros r _.
      unfold export_row. rewrite !dict_get_set.
      repeat (apply elem_of_cons in Hc as [-> | Hc]; [done |]).
      by apply elem_of_nil in Hc.
Qed.

Lemma extract_then_export_witness :
  create_individual_excel_file "Final MR_AC"
    (rows_of_frame "one.xlsx" "final mr_ac" Samples.frame_two)
  = Output
      (Some {| doc_sheet := "Data";
               doc_table :=
                 {| columns := ["a"; "b"; "_Source_File"; "_Source_Sheet";
                                "_Original_Row"];
                    values :=
                      [[CInt 1; CStr "x"; CStr "one.xlsx"; CStr "final mr_ac"; CInt 0];
                       [CInt 2; CNaN; CStr "one.xlsx"; CStr "final mr_ac";
                        CInt 1]] |} |}).
Proof.
  apply (extract_then_export "Final MR_AC" "one.xlsx" "final mr_ac" Samples.frame_two).
  - reflexivity.
  - apply NoDup_cons. split; [| apply NoDup_singleton].
    intros Hin. apply list_elem_of_singleton in Hin. discriminate Hin.
  - intros c Hc Hin. simpl in Hin.
    repeat (apply elem_of_cons in Hc as [-> | Hc]);
      try (by apply elem_of_nil in Hc);
      repeat (apply elem_of_cons in Hin as [Hin | Hin]; [discriminate Hin |]);
      by apply elem_of_nil in Hin.
  - intros row Hrow. simpl in Hrow.
    repeat (apply elem_of_cons in Hrow as [-> | Hrow]); [done | done |].
    by apply elem_of_nil in Hrow.
  - intros c Hc. simpl in Hc.
    repeat (apply elem_of_cons in Hc as [-> | Hc]; [reflexivity |]).
    by apply elem_of_nil in Hc.
  - reflexivity.
  - reflexivity.
Defined.

End ExtractThenExport.
